(** * BL Drama Recommendation System: the query resolver and the ranked browser

    A shallow embedding of [app/main.py]: catalog loading (rating coercion),
    the cosine-similarity index, [recommend] and [get_top_rated].

    Conventions.
    - Python [str] values are Rocq [string]s holding the UTF-8 bytes of the
      text.  [strip] removes every character for which [str.isspace] holds,
      whatever its encoded length; [lower] changes the letters A to Z only.
    - Python [int] is [Z]; list positions are [nat].
    - A float64 cell is a [float]: NaN, an infinity, or a finite value, which
      is a rational number and is compared as one.
    - Library calls whose code is not part of the application
      ([fuzz.partial_ratio], [re.compile], pandas' argsort, the numeric
      parser behind [pd.to_numeric]) are parameters of the sections below.
    - A raised exception is a [Raise] result. *)

From Stdlib Require Import Bool Arith ZArith QArith Lia Ascii String List.
From Stdlib Require Import Permutation Sorted.
From Stdlib Require Import Reals Lra.
Import ListNotations.

(* ------------------------------------------------------------------ *)
(** ** Python string methods used by the application *)

Module PyStr.

(** A character given by the bytes of its UTF-8 encoding. *)
Definition utf8 (bytes : list nat) : string :=
  string_of_list_ascii (map ascii_of_nat bytes).

(** The characters for which [str.isspace] holds: U+0009 to U+000D, U+001C
    to U+0020, U+0085, U+00A0, U+1680, U+2000 to U+200A, U+2028, U+2029,
    U+202F, U+205F and U+3000. *)
Definition WHITESPACE : list string :=
  Eval cbv in
    map utf8
      [ [9]; [10]; [11]; [12]; [13]; [28]; [29]; [30]; [31]; [32];
        [194; 133]; [194; 160]; [225; 154; 128];
        [226; 128; 128]; [226; 128; 129]; [226; 128; 130]; [226; 128; 131];
        [226; 128; 132]; [226; 128; 133]; [226; 128; 134]; [226; 128; 135];
        [226; 128; 136]; [226; 128; 137]; [226; 128; 138];
        [226; 128; 168]; [226; 128; 169]; [226; 128; 175];
        [226; 129; 159]; [227; 128; 128] ]%nat.

(** [ch.isspace()] for a one-character string [ch]. *)
Definition isspace (ch : string) : bool :=
  existsb (String.eqb ch) WHITESPACE.

(** A text that is empty or made of whitespace characters only. *)
Inductive whitespace_only : string -> Prop :=
| whitespace_nil : whitespace_only EmptyString
| whitespace_cons (ch rest : string) :
    In ch WHITESPACE -> whitespace_only rest ->
    whitespace_only (String.append ch rest).

(** Every byte of the text is an ASCII character. *)
Definition is_ascii (s : string) : bool :=
  forallb (fun c => (nat_of_ascii c <? 128)%nat) (list_ascii_of_string s).

(** [s.lstrip()]: a whitespace character is encoded in one, two or three
    bytes. *)
Fixpoint lstrip (s : string) : string :=
  match s with
  | EmptyString => EmptyString
  | String c s1 =>
      if isspace (String c EmptyString) then lstrip s1
      else
        match s1 with
        | EmptyString => s
        | String d s2 =>
            if isspace (String c (String d EmptyString)) then lstrip s2
            else
              match s2 with
              | EmptyString => s
              | String e s3 =>
                  if isspace (String c (String d (String e EmptyString)))
                  then lstrip s3
                  else s
              end
        end
  end.

(** [s.rstrip()]: once the rest is stripped, what is left is dropped when
    it is a single whitespace character. *)
Fixpoint rstrip (s : string) : string :=
  match s with
  | EmptyString => EmptyString
  | String c s' =>
      if isspace (String c (rstrip s')) then EmptyString
      else String c (rstrip s')
  end.

(** [s.strip()] *)
Definition strip (s : string) : string := rstrip (lstrip s).

Definition lower_char (c : ascii) : ascii :=
  let n := nat_of_ascii c in
  if (65 <=? n) && (n <=? 90) then ascii_of_nat (n + 32) else c.

(** [s.lower()], for text in which only the letters A to Z have a lowercase
    form. *)
Fixpoint lower (s : string) : string :=
  match s with
  | EmptyString => EmptyString
  | String c s' => String (lower_char c) (lower s')
  end.

(** [sep.join(parts)] *)
Fixpoint join (sep : string) (parts : list string) : string :=
  match parts with
  | [] => EmptyString
  | [p] => p
  | p :: ps => String.append p (String.append sep (join sep ps))
  end.

(** [pat in s]: [pat] occurs in [s] as a literal substring. *)
Fixpoint contains (pat s : string) : bool :=
  match s with
  | EmptyString => String.prefix pat EmptyString
  | String _ s' => String.prefix pat s || contains pat s'
  end.

(** Python truthiness of a string: [not s] holds for the empty one only. *)
Definition is_empty (s : string) : bool :=
  match s with EmptyString => true | String _ _ => false end.

End PyStr.

(* ------------------------------------------------------------------ *)
(** ** Python sequence operations: slices, [enumerate], [sorted] *)

Module PySeq.

Section Slice.
Context {A : Type}.

(** How a slice bound is brought into [0 .. len]: a negative bound counts
    from the end, and both ends are clamped. *)
Definition adjust (len i : Z) : Z :=
  if (i <? 0)%Z then Z.max (i + len) 0 else Z.min i len.

(** [l[start:stop]] *)
Definition py_slice (l : list A) (start stop : Z) : list A :=
  let len := Z.of_nat (length l) in
  let s := adjust len start in
  let e := adjust len stop in
  firstn (Z.to_nat (e - s)) (skipn (Z.to_nat s) l).

Fixpoint enumerate_from (i : nat) (l : list A) : list (nat * A) :=
  match l with
  | [] => []
  | x :: l' => (i, x) :: enumerate_from (S i) l'
  end.

(** [list(enumerate(l))] *)
Definition enumerate (l : list A) : list (nat * A) := enumerate_from 0 l.
End Slice.

Section Sorted.
Context {A K : Type}.
Variable geb : K -> K -> bool.
Variable key : A -> K.

(** [x] stood before every element of [l] in the input, so it goes in
    front of the first element whose key is not greater than its own. *)
Fixpoint insert_reverse (x : A) (l : list A) : list A :=
  match l with
  | [] => [x]
  | y :: l' =>
      if geb (key x) (key y) then x :: l else y :: insert_reverse x l'
  end.

(** [sorted(l, key=key, reverse=True)]: descending by key, elements with
    equal keys in their input order. *)
Definition sorted_reverse (l : list A) : list A :=
  fold_right insert_reverse [] l.

(** [x] may stand before [y] in a list that is descending by key. *)
Definition desc (x y : A) : Prop := geb (key x) (key y) = true.
End Sorted.

End PySeq.

(* ------------------------------------------------------------------ *)
(** ** Values: floats, exceptions, catalog records *)

(** A float64 value. *)
Inductive float : Type :=
| NaN : float
| NInf : float
| Fin (q : Q) : float
| PInf : float.

(** [a >= b] in the order of a descending sort that puts NaN last. *)
Definition float_geb (a b : float) : bool :=
  match a, b with
  | _, NaN => true
  | NaN, _ => false
  | PInf, _ => true
  | _, PInf => false
  | _, NInf => true
  | NInf, _ => false
  | Fin x, Fin y => Qle_bool y x
  end.

Definition Qgeb (x y : Q) : bool := Qle_bool y x.

Inductive exn : Type := IndexError | re_error.

Inductive result (A : Type) : Type :=
| Ok (a : A)
| Raise (e : exn).
Arguments Ok {A} a.
Arguments Raise {A} e.

Definition bind {A B : Type} (r : result A) (k : A -> result B) : result B :=
  match r with
  | Ok a => k a
  | Raise e => Raise e
  end.

Notation "x <- r ;; k" := (bind r (fun x => k))
  (at level 61, r at next level, right associativity).

Fixpoint mapM {A B : Type} (f : A -> result B) (l : list A) : result (list B) :=
  match l with
  | [] => Ok []
  | x :: l' => y <- f x ;; ys <- mapM f l' ;; Ok (y :: ys)
  end.

(** The argument of [recommend]: [None] (its default) or a string. *)
Inductive pyval : Type :=
| PyNone : pyval
| PyStr (s : string) : pyval.

(** [str(v)] *)
Definition py_str (v : pyval) : string :=
  match v with
  | PyNone => "None"
  | PyStr s => s
  end.

(** One row of the data frame after loading.  [Title] is not filled at load
    time, so it may be missing; the four text columns are. *)
Record Drama : Type := mkDrama {
  Title : option string;
  Genres : string;
  Mood_Tags : string;
  Summary : string;
  Main_Leads : string;
  Year : Z;
  Personal_rating_out_of_10 : float
}.

(** [.fillna('').astype(str)] on a text cell. *)
Definition fillna_empty (c : option string) : string :=
  match c with
  | Some s => s
  | None => EmptyString
  end.

(** A text cell inside an f-string: a missing one prints as [nan]. *)
Definition format_cell (c : option string) : string :=
  match c with
  | Some s => s
  | None => "nan"
  end.

(** [df.iloc[i]] *)
Definition iloc {A : Type} (df : list A) (i : nat) : result A :=
  match nth_error df i with
  | Some r => Ok r
  | None => Raise IndexError
  end.

(* ------------------------------------------------------------------ *)
(** ** The query resolver *)

Definition MSG_EMPTY_QUERY : string := "Please enter a drama name or keyword.".
Definition MSG_NO_RESULTS : string :=
  "No dramas found for your search. Try another keyword!".
Definition MSG_KEYWORD : string :=
  "Here are some dramas similar to what you searched for:".
Definition header_for (drama_title : option string) : string :=
  String.append "If you liked <b>"
    (String.append (format_cell drama_title) "</b>, you might also enjoy:").

Section Recommender.

(** [fuzz.partial_ratio]: a score between 0 and 100. *)
Variable partial_ratio : string -> string -> Z.

(** [re.compile(pat)] as the test [.search(s) is not None], or nothing when
    the pattern is rejected with [re.error].  This is what
    [Series.str.contains(pat)] runs: its [regex] argument defaults to
    [True]. *)
Variable re_compile : string -> option (string -> bool).

(** The loaded catalog and the similarity matrix built from it. *)
Variable df : list Drama.
Variable cosine_sim : list (list Q).

(** [df[['Title','Genres','Mood_Tags']].fillna('').astype(str)
      .apply(lambda x: ' '.join(x).lower(), axis=1)] *)
Definition search_blob (r : Drama) : string :=
  PyStr.lower
    (PyStr.join " " [fillna_empty (Title r); Genres r; Mood_Tags r]).

Definition search_space : list string := map search_blob df.

(** [search_space.str.contains(query)] *)
Definition str_contains (series : list string) (pat : string)
  : result (list bool) :=
  match re_compile pat with
  | Some found => Ok (map found series)
  | None => Raise re_error
  end.

(** [matches and matches[0][1] > 80], giving [matches[0][0]]. *)
Definition strong_match (matches : list (nat * Z)) : option nat :=
  match matches with
  | (idx, score) :: _ => if (80 <? score)%Z then Some idx else None
  | [] => None
  end.

Definition fuzzy_matches (query : string) : list (nat * Z) :=
  PySeq.sorted_reverse Z.geb snd
    (PySeq.enumerate (map (partial_ratio query) search_space)).

(** The branch taken on a strong match. *)
Definition title_branch (idx : nat) (num_recommendations : Z)
  : result (string * list Drama) :=
  r <- iloc df idx ;;
  let drama_title := Title r in
  row <- iloc cosine_sim idx ;;
  let sim_scores :=
    PySeq.py_slice
      (PySeq.sorted_reverse Qgeb snd (PySeq.enumerate row))
      1 (num_recommendations + 1) in
  let recommended_indices := map fst sim_scores in
  let header := header_for drama_title in
  recommendations <- mapM (iloc df) recommended_indices ;;
  Ok (header, recommendations).

(** The positions of [filtered = df[mask]]. *)
Definition filtered_index (mask : list bool) : list nat :=
  map fst (filter snd (PySeq.enumerate mask)).

(** The branch taken otherwise. *)
Definition keyword_branch (query : string) (num_recommendations : Z)
  : result (string * list Drama) :=
  mask <- str_contains search_space query ;;
  let filtered := filtered_index mask in
  match filtered with
  | [] => Ok (MSG_NO_RESULTS, [])
  | _ :: _ =>
      let recommended_indices :=
        PySeq.py_slice filtered 0 num_recommendations in
      recommendations <- mapM (iloc df) recommended_indices ;;
      Ok (MSG_KEYWORD, recommendations)
  end.

Definition recommend (query : pyval) (num_recommendations : Z)
  : result (string * list Drama) :=
  let query := PyStr.lower (PyStr.strip (py_str query)) in
  if PyStr.is_empty query then Ok (MSG_EMPTY_QUERY, [])
  else
    match strong_match (fuzzy_matches query) with
    | Some idx => title_branch idx num_recommendations
    | None => keyword_branch query num_recommendations
    end.

End Recommender.

(* ------------------------------------------------------------------ *)
(** ** The ranked browser *)

(** What [DataFrame.sort_values(col, ascending=False)] promises of the
    indexer it computes from the column [ks], whichever sorting algorithm
    runs underneath: every position once, keys descending, NaN last. *)
Definition is_nargsort (ks : list float) (ix : list nat) : Prop :=
  Permutation ix (seq 0 (length ks)) /\
  Sorted (fun a b => float_geb (nth a ks NaN) (nth b ks NaN) = true) ix.

(** [df.take(ix)]; an indexer only holds positions of [df]. *)
Definition take {A : Type} (df : list A) (ix : list nat) : list A :=
  flat_map (fun i => match nth_error df i with
                     | Some r => [r]
                     | None => []
                     end) ix.

Section Browser.

(** The argsort behind [sort_values]; the application leaves [kind] at its
    default, ["quicksort"]. *)
Variable nargsort : list float -> list nat.

Variable df : list Drama.

(** [df.sort_values("Personal_rating_out_of_10", ascending=False)] *)
Definition sort_values : list Drama :=
  take df (nargsort (map Personal_rating_out_of_10 df)).

Definition get_top_rated (page per_page : Z) : list Drama :=
  let sorted_df := sort_values in
  let start := ((page - 1) * per_page)%Z in
  let end_ := (page * per_page)%Z in
  PySeq.py_slice sorted_df start end_.

End Browser.

(** An argsort of this kind: descending, rows with equal keys in catalog
    order. *)
Definition stable_nargsort (ks : list float) : list nat :=
  map fst (PySeq.sorted_reverse float_geb snd (PySeq.enumerate ks)).

(* ------------------------------------------------------------------ *)
(** ** Catalog loading: the rating column *)

(** A cell of the rating column as [read_csv] delivers it. *)
Inductive raw_cell : Type :=
| RawMissing : raw_cell
| RawNum (f : float) : raw_cell
| RawText (s : string) : raw_cell.

Section Loader.

(** The numeric parser behind [pd.to_numeric]; nothing when the text is not
    a number. *)
Variable parse_numeric : string -> option float.

(** [pd.to_numeric(cell, errors="coerce")] *)
Definition to_numeric_coerce (c : raw_cell) : float :=
  match c with
  | RawMissing => NaN
  | RawNum f => f
  | RawText s =>
      match parse_numeric s with
      | Some f => f
      | None => NaN
      end
  end.

(** [.fillna(0)] *)
Definition fillna_zero (f : float) : float :=
  match f with
  | NaN => Fin 0
  | _ => f
  end.

(** Line 16: the rating column after loading. *)
Definition load_ratings (col : list raw_cell) : list float :=
  map (fun c => fillna_zero (to_numeric_coerce c)) col.

(** The cell holds no number: it is missing, it is a NaN, or it is text that
    the parser rejects or reads as NaN. *)
Definition unparseable (c : raw_cell) : Prop :=
  match c with
  | RawMissing => True
  | RawNum f => f = NaN
  | RawText s => parse_numeric s = None \/ parse_numeric s = Some NaN
  end.

(** The cell holds the number [f]: as a number, or as text that the parser
    reads as [f]. *)
Definition holds_number (c : raw_cell) (f : float) : Prop :=
  f <> NaN /\
  match c with
  | RawMissing => False
  | RawNum g => g = f
  | RawText s => parse_numeric s = Some f
  end.

End Loader.

(** A rating that is finite and not negative. *)
Definition finite_nonneg (f : float) : bool :=
  match f with
  | Fin q => Qle_bool 0 q
  | _ => false
  end.

(* ------------------------------------------------------------------ *)
(** ** The similarity index *)

(** [sklearn.metrics.pairwise.cosine_similarity] on dense rows, in exact real
    arithmetic: both arguments are L2-normalised row by row (a row of norm
    zero is left as it is), then every row of the first is multiplied with
    every row of the second. *)
Module Cosine.

Local Open Scope R_scope.

Fixpoint dot (u v : list R) : R :=
  match u, v with
  | x :: u', y :: v' => x * y + dot u' v'
  | _, _ => 0
  end.

Definition norm (u : list R) : R := sqrt (dot u u).

(** A zero norm is replaced by 1 before the division. *)
Definition handle_zeros (n : R) : R :=
  if Req_dec_T n 0 then 1 else n.

Definition normalize_row (u : list R) : list R :=
  let n := handle_zeros (norm u) in
  map (fun x => x / n) u.

Definition normalize (X : list (list R)) : list (list R) :=
  map normalize_row X.

Definition cosine_similarity (X Y : list (list R)) : list (list R) :=
  let X_normalized := normalize X in
  let Y_normalized := normalize Y in
  map (fun x => map (fun y => dot x y) Y_normalized) X_normalized.

(** [M[i][j]] *)
Definition entry (M : list (list R)) (i j : nat) : R :=
  nth j (nth i M []) 0.

Section Index.
(** The TF-IDF matrix of the catalog, one row per record. *)
Variable tfidf_matrix : list (list R).

Definition cosine_sim : list (list R) :=
  cosine_similarity tfidf_matrix tfidf_matrix.
End Index.

End Cosine.

(* ------------------------------------------------------------------ *)
(** ** A small catalog and stand-ins for the library calls *)

Module Fixture.

Local Open Scope string_scope.

(** Two records with the same genre, mood, summary and leads under different
    titles; a genre outside the emoji table is stored with a leading
    space. *)
Definition kiss : Drama :=
  mkDrama (Some "Kiss") " Campus" "sweet" "Two students fall in love."
    "Pete, Kao" 2016 (Fin 8).

Definition remake : Drama :=
  mkDrama (Some "Remake") " Campus" "sweet" "Two students fall in love."
    "Pete, Kao" 2021 (Fin 8).

Definition catalog : list Drama := [kiss; remake].

(** Equal feature texts give equal TF-IDF rows, so all four cosines are the
    same number. *)
Definition similarity : list (list Q) := [[1; 1]; [1; 1]]%Q.

(** A query of a space, a no-break space (U+00A0), an em space (U+2003) and
    a tab. *)
Definition blank_query : string :=
  String.append " "
    (String.append (PyStr.utf8 [194; 160]%nat)
       (String.append (PyStr.utf8 [226; 128; 131]%nat)
          (PyStr.utf8 [9]%nat))).

(** A scorer: full marks when the query occurs in the text, none
    otherwise. *)
Definition score_by_occurrence (query text : string) : Z :=
  if PyStr.contains query text then 100%Z else 0%Z.

(** The characters [re] gives a meaning of their own. *)
Definition special (c : ascii) : bool :=
  existsb (Ascii.eqb c)
    (list_ascii_of_string ".^$*+?{}[]\|()").

Definition ordinary (pat : string) : bool :=
  forallb (fun c => negb (special c)) (list_ascii_of_string pat).

Definition any_char (s : string) : bool :=
  existsb (fun c => negb (Ascii.eqb c "010"%char)) (list_ascii_of_string s).

(** [re.compile] on the patterns used below: a pattern of ordinary
    characters finds itself, a dot finds any character but a newline, and
    an open parenthesis alone is rejected.  Other patterns are not in this
    table. *)
Definition re_compile_table (pat : string) : option (string -> bool) :=
  if ordinary pat then Some (PyStr.contains pat)
  else if String.eqb pat "." then Some any_char
  else None.

End Fixture.

(* ------------------------------------------------------------------ *)
(** ** Catalog loading: column names, text columns, genre markers *)

Module Loading.

Local Open Scope string_scope.

(** [s.replace(old, new)] for one-character [old] and [new]. *)
Fixpoint replace_char (old new : ascii) (s : string) : string :=
  match s with
  | EmptyString => EmptyString
  | String c s' =>
      String (if Ascii.eqb c old then new else c) (replace_char old new s')
  end.

(** [re.sub] of a one-character class by the empty string. *)
Fixpoint remove_chars (drop : ascii -> bool) (s : string) : string :=
  match s with
  | EmptyString => EmptyString
  | String c s' =>
      if drop c then remove_chars drop s' else String c (remove_chars drop s')
  end.

(** The class [[()]]. *)
Definition is_paren (c : ascii) : bool :=
  Ascii.eqb c "("%char || Ascii.eqb c ")"%char.

(** Line 13, on one column name:
    [.str.strip().str.replace(" ", "_").str.replace(r"[()]", "", regex=True)] *)
Definition clean_column (name : string) : string :=
  remove_chars is_paren (replace_char " "%char "_"%char (PyStr.strip name)).

(** [.fillna("Not specified")] on a text cell. *)
Definition fillna_not_specified (c : option string) : string :=
  match c with
  | Some s => s
  | None => "Not specified"
  end.

Definition genre_emoji : list (string * string) :=
  [ ("Romance", "❤"); ("Drama", "🎭"); ("Comedy", "😂"); ("Medical", "🩺");
    ("Action", "🔥"); ("Music", "🎵"); ("Office", "🏢"); ("School", "🏫");
    ("Supernatural", "👻"); ("Sci-Fi", "👽"); ("Business", "💼");
    ("Historical", "🏰"); ("Thriller", "😱"); ("Crime", "🕵"); ("Youth", "🧒");
    ("Fantasy", "🦄"); ("Mystery", "🔍"); ("Life", "🌱"); ("Food", "🍜");
    ("Sports", "⚽") ].

(** [d.get(k, default)] *)
Definition dict_get (d : list (string * string)) (k default : string)
  : string :=
  match find (fun p => String.eqb (fst p) k) d with
  | Some p => snd p
  | None => default
  end.

(** [s.split(sep)] for a one-character separator: never an empty list. *)
Fixpoint split (sep : ascii) (s : string) : list string :=
  match s with
  | EmptyString => [EmptyString]
  | String c s' =>
      if Ascii.eqb c sep then EmptyString :: split sep s'
      else match split sep s' with
           | p :: ps => String c p :: ps
           | [] => [String c EmptyString]
           end
  end.

(** The text holds no comma. *)
Definition no_comma (s : string) : Prop :=
  ~ In ","%char (list_ascii_of_string s).

(** [f"{genre_emoji.get(word.strip(), '')} {word.strip()}"] *)
Definition decorate (word : string) : string :=
  String.append (dict_get genre_emoji (PyStr.strip word) "")
    (String.append " " (PyStr.strip word)).

Definition add_emojis (text : option string) : string :=
  match text with
  | None => "Not specified"
  | Some t => PyStr.join ", " (map decorate (split ","%char t))
  end.

(** A row as [read_csv] delivers it, under the cleaned column names. *)
Record RawDrama : Type := mkRawDrama {
  raw_Title : option string;
  raw_Genres : option string;
  raw_Mood_Tags : option string;
  raw_Summary : option string;
  raw_Main_Leads : option string;
  raw_Year : Z;
  raw_rating : raw_cell
}.

(** Lines 16 to 39 on one row: the rating is coerced, the four text columns
    are filled, then the genres are decorated. *)
Definition load_row (parse_numeric : string -> option float) (r : RawDrama)
  : Drama :=
  mkDrama (raw_Title r)
    (add_emojis (Some (fillna_not_specified (raw_Genres r))))
    (fillna_not_specified (raw_Mood_Tags r))
    (fillna_not_specified (raw_Summary r))
    (fillna_not_specified (raw_Main_Leads r))
    (raw_Year r)
    (fillna_zero (to_numeric_coerce parse_numeric (raw_rating r))).

(** Lines 44 to 49: the text the similarity is computed from. *)
Definition Combined_Features (r : Drama) : string :=
  String.append (Genres r)
    (String.append " "
       (String.append (Mood_Tags r)
          (String.append " "
             (String.append (Summary r)
                (String.append " " (Main_Leads r)))))).

End Loading.

(* ------------------------------------------------------------------ *)
(** ** The indices of a title match, and the page *)

(** Lines 77 to 79 on the similarity row of the matched record:
    [recommended_indices]. *)
Definition similar_indices (row : list Q) (num_recommendations : Z)
  : list nat :=
  map fst
    (PySeq.py_slice
       (PySeq.sorted_reverse Qgeb snd (PySeq.enumerate row))
       1 (num_recommendations + 1)).

(** What the page shows after a click on the button. *)
Inductive display : Type :=
| ShowNothing : display
| ShowWarning (header : string) : display
| ShowCards (header : string) (recs : list Drama) : display.

Section Page.

Variable partial_ratio : string -> string -> Z.
Variable re_compile : string -> option (string -> bool).
Variable df : list Drama.
Variable cosine_sim : list (list Q).

(** Lines 141 to 160: the handler of the Recommend button. *)
Definition on_recommend (user_input : string) (num_recs : Z)
  : result display :=
  if PyStr.is_empty (PyStr.strip user_input) then Ok ShowNothing
  else
    out <- recommend partial_ratio re_compile df cosine_sim
             (PyStr user_input) num_recs ;;
    match snd out with
    | [] => Ok (ShowWarning (fst out))
    | _ :: _ => Ok (ShowCards (fst out) (snd out))
    end.

(** Line 166: the largest page number the page input accepts. *)
Definition max_page : Z := (Z.of_nat (length df) / 5 + 1)%Z.

End Page.

(* ------------------------------------------------------------------ *)
(** ** Facts about the Python operations *)

Lemma bind_Ok {A B : Type} (r : result A) (k : A -> result B) (b : B) :
  bind r k = Ok b -> exists a, r = Ok a /\ k a = Ok b.
Proof.
  destruct r as [a | e]; simpl; intros H.
  - exists a; split; [reflexivity | exact H].
  - discriminate H.
Qed.

Lemma mapM_length {A B : Type} (f : A -> result B) (l : list A) :
  forall ys, mapM f l = Ok ys -> length ys = length l.
Proof.
  induction l as [| x l IH]; simpl; intros ys H.
  - injection H as <-. reflexivity.
  - apply bind_Ok in H as (y & _ & H).
    apply bind_Ok in H as (ys' & Hys & H).
    injection H as <-. simpl. f_equal. apply IH. exact Hys.
Qed.

Lemma py_slice_length_le {A : Type} (l : list A) (start stop : Z) :
  (length (PySeq.py_slice l start stop) <=
   Z.to_nat (PySeq.adjust (Z.of_nat (length l)) stop
             - PySeq.adjust (Z.of_nat (length l)) start))%nat.
Proof.
  unfold PySeq.py_slice. apply firstn_le_length.
Qed.

Lemma adjust_range (len i : Z) :
  (0 <= len -> 0 <= PySeq.adjust len i <= len)%Z.
Proof.
  unfold PySeq.adjust. destruct (Z.ltb_spec i 0); lia.
Qed.

Lemma adjust_nonneg (len i : Z) :
  (0 <= i -> PySeq.adjust len i = Z.min i len)%Z.
Proof.
  unfold PySeq.adjust. destruct (Z.ltb_spec i 0); lia.
Qed.

(** A slice that asks for [n] elements holds at most [n]. *)
Lemma py_slice_count {A : Type} (l : list A) (start n : Z) :
  (0 <= start -> 0 <= n ->
   Z.of_nat (length (PySeq.py_slice l start (start + n))) <= n)%Z.
Proof.
  intros Hs Hn.
  pose proof (py_slice_length_le l start (start + n)) as H.
  rewrite !adjust_nonneg in H by lia. lia.
Qed.

(** A whitespace character in front is stripped, whatever its length. *)
Lemma lstrip_space_app (ch rest : string) :
  In ch PyStr.WHITESPACE ->
  PyStr.lstrip (String.append ch rest) = PyStr.lstrip rest.
Proof.
  unfold PyStr.WHITESPACE. simpl In. intros H.
  repeat (destruct H as [<- | H]; [reflexivity |]). destruct H.
Qed.

Lemma lstrip_blank (s : string) :
  PyStr.whitespace_only s -> PyStr.lstrip s = EmptyString.
Proof.
  induction 1 as [| ch rest Hch _ IH]; [reflexivity |].
  rewrite lstrip_space_app by exact Hch. exact IH.
Qed.

Lemma header_for_not_empty_message (t : option string) :
  header_for t <> MSG_EMPTY_QUERY.
Proof.
  unfold header_for, MSG_EMPTY_QUERY. simpl. discriminate.
Qed.

(* ------------------------------------------------------------------ *)
(** ** The query resolver: results that hold for every catalog *)

Section RecommenderFacts.

Variable partial_ratio : string -> string -> Z.
Variable re_compile : string -> option (string -> bool).
Variable df : list Drama.
Variable cosine_sim : list (list Q).

Lemma title_branch_header (idx : nat) (n : Z) (h : string)
      (recs : list Drama) :
  title_branch df cosine_sim idx n = Ok (h, recs) ->
  (exists r, nth_error df idx = Some r /\ h = header_for (Title r)) /\
  (0 <= n -> Z.of_nat (length recs) <= n)%Z.
Proof.
  unfold title_branch. intros H.
  apply bind_Ok in H as (r & Hr & H).
  apply bind_Ok in H as (row & Hrow & H).
  apply bind_Ok in H as (rs & Hrs & H).
  injection H as <- <-. split.
  - exists r. split; [| reflexivity].
    unfold iloc in Hr. destruct (nth_error df idx); congruence.
  - intros Hn. apply mapM_length in Hrs. rewrite Hrs, length_map.
    replace (n + 1)%Z with (1 + n)%Z by lia.
    apply py_slice_count; lia.
Qed.

Lemma keyword_branch_header (q : string) (n : Z) (h : string)
      (recs : list Drama) :
  keyword_branch re_compile df q n = Ok (h, recs) ->
  (h = MSG_NO_RESULTS \/ h = MSG_KEYWORD) /\
  (0 <= n -> Z.of_nat (length recs) <= n)%Z.
Proof.
  unfold keyword_branch. intros H.
  apply bind_Ok in H as (mask & _ & H).
  destruct (filtered_index mask) as [| i rest].
  - injection H as <- <-. split; [left; reflexivity | simpl; lia].
  - apply bind_Ok in H as (rs & Hrs & H).
    injection H as <- <-. split; [right; reflexivity |].
    intros Hn. apply mapM_length in Hrs. rewrite Hrs.
    apply (py_slice_count _ 0 n); lia.
Qed.

(** C3. For every count [n], a query that is empty or holds whitespace only
    (any characters for which [str.isspace] holds) gives the header "Please
    enter a drama name or keyword." with an empty result list; nothing is
    raised. *)
Theorem recommend_blank_query (q : string) (n : Z) :
  PyStr.whitespace_only q ->
  recommend partial_ratio re_compile df cosine_sim (PyStr q) n =
  Ok (MSG_EMPTY_QUERY, []).
Proof.
  intros H. unfold recommend, PyStr.strip. simpl py_str.
  rewrite (lstrip_blank q H). reflexivity.
Qed.

(** C6 as amended. For every query and every count [n >= 0], the list of
    records that [recommend] returns has at most [n] elements. *)
Theorem recommend_length_le_count (query : pyval) (n : Z) :
  (0 <= n)%Z ->
  match recommend partial_ratio re_compile df cosine_sim query n with
  | Ok (_, recs) => (Z.of_nat (length recs) <= n)%Z
  | Raise _ => True
  end.
Proof.
  intros Hn.
  destruct (recommend partial_ratio re_compile df cosine_sim query n)
    as [[h recs] | e] eqn:E; [| exact I].
  unfold recommend in E.
  destruct (PyStr.is_empty _).
  - injection E as <- <-. simpl. exact Hn.
  - destruct (strong_match _) as [idx |].
    + apply title_branch_header in E as [_ E]. auto.
    + apply keyword_branch_header in E as [_ E]. auto.
Qed.

(** C10. [recommend(None, n)] does not give the empty-input signal: [None]
    becomes the text "none", and the call is the fuzzy or keyword search for
    that text. *)
Theorem recommend_none_searches_none (n : Z) :
  recommend partial_ratio re_compile df cosine_sim PyNone n =
  recommend partial_ratio re_compile df cosine_sim (PyStr "none") n /\
  recommend partial_ratio re_compile df cosine_sim PyNone n =
    match strong_match (fuzzy_matches partial_ratio df "none") with
    | Some idx => title_branch df cosine_sim idx n
    | None => keyword_branch re_compile df "none" n
    end /\
  recommend partial_ratio re_compile df cosine_sim PyNone n <>
  Ok (MSG_EMPTY_QUERY, []).
Proof.
  assert (E : recommend partial_ratio re_compile df cosine_sim PyNone n =
    match strong_match (fuzzy_matches partial_ratio df "none") with
    | Some idx => title_branch df cosine_sim idx n
    | None => keyword_branch re_compile df "none" n
    end) by reflexivity.
  split; [reflexivity | split; [exact E |]].
  rewrite E. intros H.
  destruct (strong_match _) as [idx |].
  - apply title_branch_header in H as [(r & _ & Hh) _].
    symmetry in Hh. exact (header_for_not_empty_message _ Hh).
  - apply keyword_branch_header in H as [[Hh | Hh] _]; discriminate Hh.
Qed.

End RecommenderFacts.

(* ------------------------------------------------------------------ *)
(** ** [sorted(..., reverse=True)] *)

Section SortedFacts.

Context {A K : Type}.
Variable geb : K -> K -> bool.
Variable key : A -> K.
Hypothesis geb_total : forall a b, geb a b = false -> geb b a = true.

Lemma insert_reverse_perm (x : A) (l : list A) :
  Permutation (PySeq.insert_reverse geb key x l) (x :: l).
Proof.
  induction l as [| y l IH]; simpl.
  - apply Permutation_refl.
  - destruct (geb (key x) (key y)).
    + apply Permutation_refl.
    + eapply perm_trans; [apply perm_skip, IH | apply perm_swap].
Qed.

Lemma sorted_reverse_perm (l : list A) :
  Permutation (PySeq.sorted_reverse geb key l) l.
Proof.
  induction l as [| x l IH]; simpl.
  - apply perm_nil.
  - eapply perm_trans; [apply insert_reverse_perm | apply perm_skip, IH].
Qed.

Lemma insert_reverse_sorted (x : A) (l : list A) :
  Sorted (PySeq.desc geb key) l ->
  Sorted (PySeq.desc geb key) (PySeq.insert_reverse geb key x l).
Proof.
  induction l as [| y l IH]; simpl; intros Hs.
  - repeat constructor.
  - destruct (geb (key x) (key y)) eqn:E.
    + constructor; [exact Hs | constructor; exact E].
    + apply Sorted_inv in Hs as [Hs Hd].
      constructor; [apply IH; exact Hs |].
      destruct l as [| z l]; simpl.
      * constructor. apply geb_total. exact E.
      * destruct (geb (key x) (key z)).
        -- constructor. apply geb_total. exact E.
        -- inversion Hd; subst. constructor. assumption.
Qed.

Lemma sorted_reverse_sorted (l : list A) :
  Sorted (PySeq.desc geb key) (PySeq.sorted_reverse geb key l).
Proof.
  induction l as [| x l IH]; simpl.
  - constructor.
  - apply insert_reverse_sorted. exact IH.
Qed.

End SortedFacts.

Lemma Sorted_map_Forall {A B : Type} (R : A -> A -> Prop) (R' : B -> B -> Prop)
      (P : A -> Prop) (f : A -> B) (l : list A) :
  (forall x y, P x -> P y -> R x y -> R' (f x) (f y)) ->
  Forall P l -> Sorted R l -> Sorted R' (map f l).
Proof.
  intros HR HP Hs. induction Hs as [| x l Hs IH Hd]; simpl.
  - constructor.
  - apply Forall_cons_iff in HP as [Hx HP].
    constructor; [apply IH; exact HP |].
    destruct Hd as [| y l Hxy]; simpl; constructor.
    apply Forall_cons_iff in HP as [Hy _]. apply HR; assumption.
Qed.

Lemma Sorted_skipn {A : Type} (R : A -> A -> Prop) (n : nat) :
  forall l, Sorted R l -> Sorted R (skipn n l).
Proof.
  induction n as [| n IH]; intros l Hs; simpl.
  - exact Hs.
  - destruct l as [| x l]; [constructor |].
    apply IH. apply Sorted_inv in Hs. tauto.
Qed.

Lemma Sorted_firstn {A : Type} (R : A -> A -> Prop) (n : nat) :
  forall l, Sorted R l -> Sorted R (firstn n l).
Proof.
  induction n as [| n IH]; intros l Hs; simpl.
  - constructor.
  - destruct l as [| x l]; [constructor |].
    apply Sorted_inv in Hs as [Hs Hd].
    constructor; [apply IH; exact Hs |].
    destruct n; simpl; [constructor |].
    destruct Hd; constructor; assumption.
Qed.

Lemma Sorted_py_slice {A : Type} (R : A -> A -> Prop) (l : list A) (s e : Z) :
  Sorted R l -> Sorted R (PySeq.py_slice l s e).
Proof.
  intros H. unfold PySeq.py_slice. apply Sorted_firstn, Sorted_skipn, H.
Qed.

Lemma firstn_beyond {A : Type} (l : list A) (m n : nat) :
  (Nat.min m (length l) = Nat.min n (length l))%nat -> firstn m l = firstn n l.
Proof.
  revert m n. induction l as [| x l IH]; intros m n H.
  - rewrite !firstn_nil. reflexivity.
  - destruct m, n; simpl in *; try reflexivity; try discriminate.
    f_equal. apply IH. lia.
Qed.

(** How a slice with bounds that are not negative reads: skip [start]
    elements, then keep [stop - start]. *)
Lemma py_slice_nonneg {A : Type} (l : list A) (start n : Z) :
  (0 <= start)%Z -> (0 <= n)%Z ->
  PySeq.py_slice l start (start + n) =
  firstn (Z.to_nat n) (skipn (Z.to_nat start) l).
Proof.
  intros Hs Hn. unfold PySeq.py_slice.
  rewrite !adjust_nonneg by lia.
  destruct (Z.le_gt_cases (Z.of_nat (length l)) start) as [Hge | Hlt].
  - rewrite !skipn_all2 by lia. rewrite !firstn_nil. reflexivity.
  - replace (Z.min start (Z.of_nat (length l))) with start by lia.
    apply firstn_beyond. rewrite length_skipn. lia.
Qed.

Lemma py_slice_past_end {A : Type} (l : list A) (start stop : Z) :
  (Z.of_nat (length l) <= start)%Z -> PySeq.py_slice l start stop = [].
Proof.
  intros H. unfold PySeq.py_slice.
  rewrite (adjust_nonneg _ start) by lia.
  rewrite skipn_all2 by lia. apply firstn_nil.
Qed.

(* ------------------------------------------------------------------ *)
(** ** [enumerate] and the argsorts *)

Lemma enumerate_from_fst {A : Type} (l : list A) :
  forall k, map fst (PySeq.enumerate_from k l) = seq k (length l).
Proof.
  induction l as [| x l IH]; intros k; simpl; [reflexivity |].
  f_equal. apply IH.
Qed.

Lemma enumerate_from_nth (l : list float) :
  forall k, Forall (fun p => nth (fst p - k) l NaN = snd p /\ (k <= fst p)%nat)
              (PySeq.enumerate_from k l).
Proof.
  induction l as [| x l IH]; intros k; simpl; constructor.
  - simpl. rewrite Nat.sub_diag. split; [reflexivity | lia].
  - eapply Forall_impl; [| apply (IH (S k))].
    intros [i y] [Hy Hi]; simpl in *. split; [| lia].
    replace (i - k)%nat with (S (i - S k)) by lia. exact Hy.
Qed.

Lemma float_geb_total (a b : float) :
  float_geb a b = false -> float_geb b a = true.
Proof.
  destruct a as [| | x |], b as [| | y |]; simpl; try reflexivity;
    try discriminate.
  intros H. apply Qle_bool_iff.
  destruct (Qlt_le_dec x y) as [Hlt | Hle].
  - apply Qlt_le_weak. exact Hlt.
  - apply Qle_bool_iff in Hle. congruence.
Qed.

(** Sorting any rearrangement of the enumerated column gives an indexer that
    [sort_values] may use. *)
Lemma sorted_enumeration_is_nargsort (ks : list float)
      (l : list (nat * float)) :
  Permutation l (PySeq.enumerate ks) ->
  is_nargsort ks (map fst (PySeq.sorted_reverse float_geb snd l)).
Proof.
  intros Hp.
  assert (Hs : Permutation (PySeq.sorted_reverse float_geb snd l)
                           (PySeq.enumerate ks)).
  { eapply perm_trans; [apply sorted_reverse_perm | exact Hp]. }
  split.
  - unfold PySeq.enumerate in Hs.
    rewrite <- (enumerate_from_fst ks 0). apply Permutation_map. exact Hs.
  - apply Sorted_map_Forall
      with (R := PySeq.desc float_geb snd)
           (P := fun p => nth (fst p) ks NaN = snd p).
    + intros [i x] [j y]; unfold PySeq.desc; simpl. intros -> ->. trivial.
    + eapply Permutation_Forall; [apply Permutation_sym, Hs |].
      eapply Forall_impl; [| apply (enumerate_from_nth ks 0)].
      intros [i x] [H _]; simpl in *. rewrite Nat.sub_0_r in H. exact H.
    + apply sorted_reverse_sorted. apply float_geb_total.
Qed.

Lemma stable_nargsort_ok (ks : list float) :
  is_nargsort ks (stable_nargsort ks).
Proof.
  apply sorted_enumeration_is_nargsort. apply Permutation_refl.
Qed.


(* ------------------------------------------------------------------ *)
(** ** The ranked browser: results *)

Lemma take_app_seq {A : Type} (l2 : list A) :
  forall l1, take (l1 ++ l2) (seq (length l1) (length l2)) = l2.
Proof.
  induction l2 as [| x l2 IH]; intros l1; simpl; [reflexivity |].
  rewrite nth_error_app2 by lia. rewrite Nat.sub_diag. simpl. f_equal.
  specialize (IH (l1 ++ [x])).
  rewrite <- app_assoc, length_app in IH. simpl in IH.
  rewrite Nat.add_1_r in IH. exact IH.
Qed.

Lemma take_perm {A : Type} (df : list A) (ix : list nat) :
  Permutation ix (seq 0 (length df)) -> Permutation (take df ix) df.
Proof.
  intros H. unfold take.
  eapply perm_trans; [apply Permutation_flat_map, H |].
  pose proof (take_app_seq df []) as E. simpl in E. unfold take in E.
  rewrite E. apply Permutation_refl.
Qed.

Section BrowserFacts.

Variable nargsort : list float -> list nat.
Variable df : list Drama.

Hypothesis nargsort_ok :
  is_nargsort (map Personal_rating_out_of_10 df)
              (nargsort (map Personal_rating_out_of_10 df)).

Lemma sort_values_perm : Permutation (sort_values nargsort df) df.
Proof.
  destruct nargsort_ok as [Hp _]. rewrite length_map in Hp.
  apply take_perm. exact Hp.
Qed.

(** C7. A page whose first position lies at or beyond the end of the
    catalog is the empty list; nothing is raised. *)
Theorem get_top_rated_page_beyond_end (page per_page : Z) :
  (Z.of_nat (length df) <= (page - 1) * per_page)%Z ->
  get_top_rated nargsort df page per_page = [].
Proof.
  intros H. unfold get_top_rated. apply py_slice_past_end.
  rewrite (Permutation_length sort_values_perm). exact H.
Qed.

End BrowserFacts.

(* ------------------------------------------------------------------ *)
(** ** Catalog loading: results *)

(** C8 as amended. After loading, every rating is a number and never NaN: a
    cell that is missing or holds no number becomes 0, and a cell that holds
    a number, as a number or as text that parses, keeps it as it is,
    whatever its sign or size; so a rating is finite and not negative when
    the number read is.  Every cell is of one of the two kinds. *)
Theorem load_ratings_spec (parse_numeric : string -> option float)
        (col : list raw_cell) :
  Forall2 (fun c r =>
             r <> NaN /\
             (unparseable parse_numeric c -> r = Fin 0) /\
             (forall f, holds_number parse_numeric c f -> r = f) /\
             (unparseable parse_numeric c \/
              exists f, holds_number parse_numeric c f))
          col (load_ratings parse_numeric col).
Proof.
  unfold load_ratings.
  induction col as [| c col IH]; simpl; constructor; [| exact IH].
  unfold unparseable, holds_number.
  destruct c as [| g | s]; simpl;
    [ | destruct g as [| | q |]
      | destruct (parse_numeric s) as [[| | q |] |] ]; simpl;
    (split; [discriminate |]);
    (split; [intros H; try reflexivity; try (destruct H as [H | H]);
             try discriminate H; congruence |]);
    (split; [intros f [Hf H]; try contradiction; congruence |]);
    first [ left; solve [exact I | reflexivity
                         | left; reflexivity | right; reflexivity]
          | right; eexists; (split; [| reflexivity]); discriminate ].
Qed.

(* ------------------------------------------------------------------ *)
(** ** The similarity index: results *)

Module CosineFacts.

Import Cosine.
Local Open Scope R_scope.

Lemma dot_comm (u : list R) : forall v, dot u v = dot v u.
Proof.
  induction u as [| x u IH]; intros [| y v]; simpl; try reflexivity.
  rewrite (IH v). ring.
Qed.

Lemma dot_nil_r (u : list R) : dot u [] = 0.
Proof. destruct u; reflexivity. Qed.

Lemma dot_self_nonneg (u : list R) : 0 <= dot u u.
Proof.
  induction u as [| x u IH]; simpl; [lra |].
  pose proof (Rle_0_sqr x) as Hx. unfold Rsqr in Hx. lra.
Qed.

(** The step behind the Cauchy-Schwarz bound: a sum of squares of
    differences is not negative. *)
Lemma dot_le_squares (u : list R) :
  forall v, 2 * dot u v <= dot u u + dot v v.
Proof.
  induction u as [| x u IH]; intros [| y v]; simpl.
  - lra.
  - pose proof (dot_self_nonneg v). pose proof (Rle_0_sqr y) as Hy.
    unfold Rsqr in Hy. lra.
  - pose proof (dot_self_nonneg u). pose proof (Rle_0_sqr x) as Hx.
    unfold Rsqr in Hx. lra.
  - specialize (IH v). pose proof (Rle_0_sqr (x - y)) as Hxy.
    unfold Rsqr in Hxy. nra.
Qed.

Lemma dot_self_zero (u : list R) :
  dot u u = 0 -> forall v, dot u v = 0.
Proof.
  induction u as [| x u IH]; intros H [| y v]; simpl in *; try reflexivity.
  pose proof (dot_self_nonneg u) as Hu.
  assert (Hx : x = 0) by nra.
  assert (Hu0 : dot u u = 0) by nra.
  rewrite (IH Hu0 v), Hx. ring.
Qed.

Lemma dot_scale_l (c : R) (u : list R) :
  forall v, dot (map (fun x => x / c) u) v = dot u v / c.
Proof.
  induction u as [| x u IH]; intros [| y v]; simpl;
    try (unfold Rdiv; ring).
  rewrite IH. unfold Rdiv. ring.
Qed.

Lemma dot_normalize (u v : list R) :
  dot (normalize_row u) (normalize_row v) =
  dot u v / handle_zeros (norm u) / handle_zeros (norm v).
Proof.
  unfold normalize_row. rewrite dot_scale_l.
  rewrite (dot_comm u), dot_scale_l, (dot_comm v). unfold Rdiv. ring.
Qed.

Lemma handle_zeros_pos (u : list R) : 0 < handle_zeros (norm u).
Proof.
  unfold handle_zeros. destruct (Req_dec_T (norm u) 0) as [E | E]; [lra |].
  pose proof (sqrt_pos (dot u u)). unfold norm in *. lra.
Qed.

(** A normalised row has length one, or is the zero row. *)
Lemma dot_normalize_self (u : list R) :
  (norm u <> 0 /\ dot (normalize_row u) (normalize_row u) = 1) \/
  (dot u u = 0 /\ dot (normalize_row u) (normalize_row u) = 0).
Proof.
  rewrite dot_normalize. unfold handle_zeros.
  destruct (Req_dec_T (norm u) 0) as [E | E].
  - right. unfold norm in E. apply sqrt_eq_0 in E; [| apply dot_self_nonneg].
    split; [exact E |]. rewrite E. unfold Rdiv. ring.
  - left. split; [exact E |].
    replace (dot u u) with (norm u * norm u)
      by (apply sqrt_sqrt, dot_self_nonneg).
    field. exact E.
Qed.

Lemma dot_normalize_le_self (u v : list R) :
  dot (normalize_row u) (normalize_row v) <=
  dot (normalize_row u) (normalize_row u).
Proof.
  destruct (dot_normalize_self u) as [[_ Hu] | [Hu0 Hu]].
  - pose proof (dot_le_squares (normalize_row u) (normalize_row v)) as H.
    destruct (dot_normalize_self v) as [[_ Hv] | [_ Hv]]; lra.
  - rewrite Hu, dot_normalize, (dot_self_zero u Hu0 v).
    unfold Rdiv. rewrite !Rmult_0_l. lra.
Qed.

Lemma nth_map_in {A B : Type} (f : A -> B) (l : list A) (i : nat)
      (d : A) (d' : B) :
  (i < length l)%nat -> nth i (map f l) d' = f (nth i l d).
Proof.
  intros H. rewrite (nth_indep _ d' (f d)) by (rewrite length_map; exact H).
  apply map_nth.
Qed.

Lemma nth_normalize (X : list (list R)) (i : nat) :
  nth i (normalize X) [] = normalize_row (nth i X []).
Proof.
  unfold normalize. apply (map_nth normalize_row X [] i).
Qed.

Lemma entry_cosine_similarity (X Y : list (list R)) (i j : nat) :
  entry (cosine_similarity X Y) i j =
  dot (normalize_row (nth i X [])) (normalize_row (nth j Y [])).
Proof.
  unfold entry, cosine_similarity.
  rewrite <- !nth_normalize.
  destruct (Nat.lt_ge_cases i (length (normalize X))) as [Hi | Hi].
  - rewrite (nth_map_in _ (normalize X) i []) by exact Hi.
    destruct (Nat.lt_ge_cases j (length (normalize Y))) as [Hj | Hj].
    + apply nth_map_in. exact Hj.
    + rewrite nth_overflow by (rewrite length_map; exact Hj).
      rewrite (nth_overflow (normalize Y)) by exact Hj.
      symmetry. apply dot_nil_r.
  - rewrite (nth_overflow (map _ (normalize X)))
      by (rewrite length_map; exact Hi).
    rewrite (nth_overflow (normalize X)) by exact Hi.
    destruct j; reflexivity.
Qed.

(** In exact arithmetic the similarity matrix is symmetric, and in every row
    the entry on the diagonal is the largest.  The matrix the program holds
    is the float64 rounding of this one. *)
Lemma cosine_sim_symmetric_diag_max (tfidf_matrix : list (list R))
        (i j : nat) :
  entry (cosine_sim tfidf_matrix) i j = entry (cosine_sim tfidf_matrix) j i /\
  entry (cosine_sim tfidf_matrix) i j <= entry (cosine_sim tfidf_matrix) i i.
Proof.
  unfold cosine_sim. rewrite !entry_cosine_similarity. split.
  - apply dot_comm.
  - apply dot_normalize_le_self.
Qed.

(** Records with the same feature text have the same TF-IDF row, and then
    the similarity of one to the other equals that of each to itself. *)
Lemma cosine_sim_equal_rows (tfidf_matrix : list (list R)) (i j : nat) :
  nth i tfidf_matrix [] = nth j tfidf_matrix [] ->
  entry (cosine_sim tfidf_matrix) i j = entry (cosine_sim tfidf_matrix) i i.
Proof.
  intros H. unfold cosine_sim. rewrite !entry_cosine_similarity, H.
  reflexivity.
Qed.

End CosineFacts.

(* ------------------------------------------------------------------ *)
(** ** The query resolver: which branch runs, and what the keyword branch
       returns *)

Lemma enumerate_from_In {A : Type} (l : list A) :
  forall k i x, In (i, x) (PySeq.enumerate_from k l) -> In x l.
Proof.
  induction l as [| y l IH]; simpl; intros k i x H; [exact H |].
  destruct H as [H | H].
  - left. congruence.
  - right. apply (IH (S k) i x H).
Qed.

Lemma mapM_firstn {A B : Type} (f : A -> result B) (k : nat) :
  forall l ys, mapM f l = Ok ys -> mapM f (firstn k l) = Ok (firstn k ys).
Proof.
  induction k as [| k IH]; intros l ys H; [reflexivity |].
  destruct l as [| x l]; simpl in *.
  - injection H as <-. reflexivity.
  - apply bind_Ok in H as (y & Hy & H).
    apply bind_Ok in H as (ys' & Hys & H).
    injection H as <-. rewrite Hy. simpl.
    rewrite (IH l ys' Hys). reflexivity.
Qed.

Lemma mapM_iloc_filtered {A : Type} (keep : A -> bool) (l2 : list A) :
  forall l1,
    mapM (iloc (l1 ++ l2))
      (map fst (filter snd (PySeq.enumerate_from (length l1) (map keep l2))))
    = Ok (filter keep l2).
Proof.
  induction l2 as [| x l2 IH]; intros l1; simpl; [reflexivity |].
  specialize (IH (l1 ++ [x])).
  rewrite <- app_assoc, length_app, Nat.add_1_r in IH. simpl in IH.
  destruct (keep x); simpl.
  - unfold iloc at 1. rewrite nth_error_app2 by lia.
    rewrite Nat.sub_diag. simpl. rewrite IH. reflexivity.
  - exact IH.
Qed.

Section BranchFacts.

Variable partial_ratio : string -> string -> Z.
Variable re_compile : string -> option (string -> bool).
Variable df : list Drama.
Variable cosine_sim : list (list Q).

(** No blob scores above 80: there is no strong match. *)
Lemma strong_match_none (query : string) :
  (forall blob, In blob (search_space df) ->
                (partial_ratio query blob <= 80)%Z) ->
  strong_match (fuzzy_matches partial_ratio df query) = None.
Proof.
  intros H. unfold fuzzy_matches, strong_match.
  destruct (PySeq.sorted_reverse _ _ _) as [| [idx score] rest] eqn:E;
    [reflexivity |].
  assert (Hin : In (idx, score)
                   (PySeq.enumerate
                      (map (partial_ratio query) (search_space df)))).
  { apply (Permutation_in _ (sorted_reverse_perm Z.geb snd _)).
    rewrite E. left. reflexivity. }
  apply enumerate_from_In, in_map_iff in Hin as (blob & <- & Hblob).
  specialize (H blob Hblob).
  destruct (Z.ltb_spec 80 (partial_ratio query blob)); [lia | reflexivity].
Qed.

(** What the keyword branch returns once the pattern compiles: the records
    whose blob the compiled pattern is found in, in catalog order, cut to
    the first [n]. *)
Lemma keyword_branch_found (query : string) (found : string -> bool) (n : Z) :
  re_compile query = Some found ->
  (0 <= n)%Z ->
  keyword_branch re_compile df query n =
  match filter (fun r => found (search_blob r)) df with
  | [] => Ok (MSG_NO_RESULTS, [])
  | hits => Ok (MSG_KEYWORD, firstn (Z.to_nat n) hits)
  end.
Proof.
  intros Hc Hn. unfold keyword_branch, str_contains. rewrite Hc. simpl.
  unfold filtered_index, search_space, PySeq.enumerate. rewrite map_map.
  pose proof (mapM_iloc_filtered (fun r => found (search_blob r)) df [])
    as Hall. simpl in Hall.
  destruct (map fst _) as [| i rest] eqn:E.
  - simpl in Hall. injection Hall as <-. reflexivity.
  - pose proof (py_slice_nonneg (i :: rest) 0 n (Z.le_refl 0) Hn) as Hsl.
    change (0 + n)%Z with n in Hsl. change (Z.to_nat 0) with 0%nat in Hsl.
    rewrite Hsl. cbv beta iota delta [skipn].
    rewrite (mapM_firstn _ _ _ _ Hall). simpl.
    destruct (filter _ df) as [| r hits] eqn:F; [| reflexivity].
    simpl in Hall. apply bind_Ok in Hall as (y & _ & Hall).
    apply bind_Ok in Hall as (ys & _ & Hall). discriminate Hall.
Qed.

(** The keyword search for a query the pattern compiler reads literally:
    the records whose blob contains the query, in catalog order, cut to
    the first [n]; the no-results message when there are none. *)
Lemma recommend_keyword_literal (query : string) (found : string -> bool)
      (n : Z) :
  PyStr.is_empty query = false ->
  PyStr.lower (PyStr.strip query) = query ->
  (forall blob, In blob (search_space df) ->
                (partial_ratio query blob <= 80)%Z) ->
  re_compile query = Some found ->
  (forall s, found s = PyStr.contains query s) ->
  (0 <= n)%Z ->
  recommend partial_ratio re_compile df cosine_sim (PyStr query) n =
  match filter (fun r => PyStr.contains query (search_blob r)) df with
  | [] => Ok (MSG_NO_RESULTS, [])
  | hits => Ok (MSG_KEYWORD, firstn (Z.to_nat n) hits)
  end.
Proof.
  intros Hne Hq Hs Hc Hf Hn. unfold recommend. simpl py_str.
  rewrite Hq, Hne, (strong_match_none query Hs).
  rewrite (keyword_branch_found query found n Hc Hn).
  rewrite (filter_ext _ (fun r => PyStr.contains query (search_blob r)));
    [reflexivity |].
  intros r. apply Hf.
Qed.

(** C5, at a query that is not a valid pattern.  The query "(" scores at
    most 80 against every blob, so the keyword branch runs; the pattern
    compiler rejects it, and [recommend] raises instead of returning the
    no-results message. *)
Theorem recommend_keyword_bad_pattern_raises (n : Z) :
  (forall blob, In blob (search_space df) ->
                (partial_ratio "(" blob <= 80)%Z) ->
  re_compile "(" = None ->
  recommend partial_ratio re_compile df cosine_sim (PyStr "(") n =
  Raise re_error.
Proof.
  intros Hs Hc. unfold recommend.
  change (PyStr.lower (PyStr.strip (py_str (PyStr "(")))) with "("%string.
  simpl PyStr.is_empty. cbv iota.
  rewrite (strong_match_none "(" Hs).
  unfold keyword_branch, str_contains. rewrite Hc. reflexivity.
Qed.

End BranchFacts.

(* ------------------------------------------------------------------ *)
(** ** The two branches on the small catalog *)

Section OnTheCatalog.

Import Fixture.

Variable partial_ratio : string -> string -> Z.
Variable re_compile : string -> option (string -> bool).

(** C1, at a catalog with two records of equal feature text.  The query
    "Remake" matches the second record strongly; its similarity row holds
    the same value for both records, the stable sort leaves the first
    record at rank 0, and the slice from rank 1 returns the matched record
    itself and drops the other one. *)
Theorem recommend_title_match_returns_matched_record (n : Z) :
  (partial_ratio "remake" (search_blob kiss) <
   partial_ratio "remake" (search_blob remake))%Z ->
  (80 < partial_ratio "remake" (search_blob remake))%Z ->
  (1 <= n)%Z ->
  recommend partial_ratio re_compile catalog similarity (PyStr "Remake") n =
  Ok (header_for (Title remake), [remake]).
Proof.
  intros Hlt Hstrong Hn. unfold recommend.
  change (PyStr.lower (PyStr.strip (py_str (PyStr "Remake"))))
    with "remake"%string.
  simpl PyStr.is_empty. cbv iota.
  assert (Hm : strong_match (fuzzy_matches partial_ratio catalog "remake")
               = Some 1%nat).
  { unfold fuzzy_matches, catalog, search_space. simpl.
    destruct (Z.geb_spec (partial_ratio "remake" (search_blob kiss))
                         (partial_ratio "remake" (search_blob remake)));
      [lia |].
    simpl.
    destruct (Z.ltb_spec 80 (partial_ratio "remake" (search_blob remake)));
      [reflexivity | lia]. }
  rewrite Hm. unfold title_branch. simpl.
  replace (PySeq.py_slice [(0%nat, 1%Q); (1%nat, 1%Q)] 1 (n + 1))
    with [(1%nat, 1%Q)]; [reflexivity |].
  unfold PySeq.py_slice. rewrite !adjust_nonneg by lia. simpl length.
  replace (Z.min 1 (Z.of_nat 2)) with 1%Z by lia.
  replace (Z.min (n + 1) (Z.of_nat 2)) with 2%Z by lia.
  reflexivity.
Qed.

(** C2, at a query that is a pattern.  The query "." scores at most 80
    against every blob, so the keyword branch runs; as a pattern it is
    found in every blob, and every record is returned although no blob
    contains a full stop. *)
Theorem recommend_keyword_pattern_not_literal (found : string -> bool)
        (n : Z) :
  (forall blob, In blob (search_space catalog) ->
                (partial_ratio "." blob <= 80)%Z) ->
  re_compile "." = Some found ->
  (forall blob, In blob (search_space catalog) -> found blob = true) ->
  (0 <= n)%Z ->
  recommend partial_ratio re_compile catalog similarity (PyStr ".") n =
  Ok (MSG_KEYWORD, firstn (Z.to_nat n) catalog) /\
  filter (fun r => PyStr.contains "." (search_blob r)) catalog = [].
Proof.
  intros Hs Hc Hf Hn. split; [| reflexivity]. unfold recommend.
  change (PyStr.lower (PyStr.strip (py_str (PyStr ".")))) with "."%string.
  simpl PyStr.is_empty. cbv iota.
  rewrite (strong_match_none partial_ratio catalog "." Hs).
  rewrite (keyword_branch_found re_compile catalog "." found n Hc Hn).
  unfold catalog at 1. simpl filter.
  rewrite !Hf; [reflexivity | |]; simpl; tauto.
Qed.

End OnTheCatalog.

(* ------------------------------------------------------------------ *)
(** ** The results at concrete inputs *)

Module Examples.

Import Fixture.
Local Open Scope string_scope.

Lemma scores_on_catalog (query : string) :
  existsb (PyStr.contains query) (search_space catalog) = false ->
  forall blob, In blob (search_space catalog) ->
               (score_by_occurrence query blob <= 80)%Z.
Proof.
  intros H blob Hin. unfold score_by_occurrence.
  destruct (PyStr.contains query blob) eqn:E; [| lia].
  assert (existsb (PyStr.contains query) (search_space catalog) = true)
    by (apply existsb_exists; exists blob; auto).
  congruence.
Qed.

Lemma recommend_title_match_returns_matched_record_witness :
  (score_by_occurrence "remake" (search_blob kiss) <
   score_by_occurrence "remake" (search_blob remake))%Z /\
  (80 < score_by_occurrence "remake" (search_blob remake))%Z /\
  recommend score_by_occurrence re_compile_table catalog similarity
    (PyStr "Remake") 5 =
  Ok ("If you liked <b>Remake</b>, you might also enjoy:", [remake]).
Proof.
  split; [reflexivity |]. split; [reflexivity |].
  apply (recommend_title_match_returns_matched_record
           score_by_occurrence re_compile_table 5);
    [reflexivity | reflexivity | lia].
Defined.

Lemma recommend_keyword_pattern_not_literal_witness :
  recommend score_by_occurrence re_compile_table catalog similarity
    (PyStr ".") 5 = Ok (MSG_KEYWORD, [kiss; remake]) /\
  filter (fun r => PyStr.contains "." (search_blob r)) catalog = [].
Proof.
  apply (recommend_keyword_pattern_not_literal
           score_by_occurrence re_compile_table any_char 5).
  - apply scores_on_catalog. reflexivity.
  - reflexivity.
  - intros blob [<- | [<- | []]]; reflexivity.
  - lia.
Defined.

Lemma recommend_blank_query_witness :
  PyStr.whitespace_only blank_query /\
  recommend score_by_occurrence re_compile_table catalog similarity
    (PyStr blank_query) 5 = Ok (MSG_EMPTY_QUERY, []).
Proof.
  assert (H : PyStr.whitespace_only blank_query).
  { apply (PyStr.whitespace_cons " "); [simpl; tauto |].
    apply (PyStr.whitespace_cons (PyStr.utf8 [194; 160]%nat));
      [simpl; tauto |].
    apply (PyStr.whitespace_cons (PyStr.utf8 [226; 128; 131]%nat));
      [simpl; tauto |].
    apply (PyStr.whitespace_cons (PyStr.utf8 [9]%nat) EmptyString);
      [simpl; tauto |].
    apply PyStr.whitespace_nil. }
  split; [exact H |].
  apply recommend_blank_query. exact H.
Defined.

Lemma recommend_keyword_bad_pattern_raises_witness :
  existsb (PyStr.contains "(") (search_space catalog) = false /\
  recommend score_by_occurrence re_compile_table catalog similarity
    (PyStr "(") 5 = Raise re_error.
Proof.
  split; [reflexivity |].
  apply recommend_keyword_bad_pattern_raises.
  - apply scores_on_catalog. reflexivity.
  - reflexivity.
Defined.

Lemma recommend_length_le_count_witness :
  match recommend score_by_occurrence re_compile_table catalog similarity
          (PyStr "Kiss") 1 with
  | Ok (_, recs) => (Z.of_nat (length recs) <= 1)%Z
  | Raise _ => True
  end.
Proof.
  apply recommend_length_le_count. lia.
Defined.

(** C6 as stated fails: a count below zero is accepted, and no list is
    that short. *)
Lemma recommend_length_negative_count :
  ~ (forall partial_ratio re_compile df cosine_sim query n,
        match recommend partial_ratio re_compile df cosine_sim query n with
        | Ok (_, recs) => (Z.of_nat (length recs) <= n)%Z
        | Raise _ => True
        end).
Proof.
  intros H.
  specialize (H score_by_occurrence re_compile_table catalog similarity
                (PyStr "") (-1)%Z).
  simpl in H. lia.
Qed.

Lemma get_top_rated_page_beyond_end_witness :
  (Z.of_nat (length catalog) <= (2 - 1) * 5)%Z /\
  get_top_rated stable_nargsort catalog 2 5 = [].
Proof.
  split; [simpl; lia |].
  apply get_top_rated_page_beyond_end.
  - apply stable_nargsort_ok.
  - simpl. lia.
Defined.

(** C8 as stated fails: a rating that is a negative number is kept. *)
Lemma load_ratings_negative_kept :
  ~ (forall parse_numeric col,
        Forall (fun r => finite_nonneg r = true)
               (load_ratings parse_numeric col)).
Proof.
  intros H.
  specialize (H (fun _ => None) [RawNum (Fin (-3))]).
  apply Forall_inv in H. discriminate H.
Qed.

End Examples.

(* ------------------------------------------------------------------ *)
(** ** Query normalisation *)

Lemma isspace_In (t : string) :
  PyStr.isspace t = true <-> In t PyStr.WHITESPACE.
Proof.
  unfold PyStr.isspace. rewrite existsb_exists. split.
  - intros (w & Hin & E). apply String.eqb_eq in E. subst w. exact Hin.
  - intros H. exists t. split; [exact H | apply String.eqb_refl].
Qed.

Lemma lstrip_eq (c : ascii) (s1 : string) :
  PyStr.lstrip (String c s1) =
  if PyStr.isspace (String c EmptyString) then PyStr.lstrip s1
  else
    match s1 with
    | EmptyString => String c s1
    | String d s2 =>
        if PyStr.isspace (String c (String d EmptyString))
        then PyStr.lstrip s2
        else
          match s2 with
          | EmptyString => String c s1
          | String e s3 =>
              if PyStr.isspace (String c (String d (String e EmptyString)))
              then PyStr.lstrip s3
              else String c s1
          end
    end.
Proof. reflexivity. Qed.

Lemma rstrip_eq (c : ascii) (s' : string) :
  PyStr.rstrip (String c s') =
  if PyStr.isspace (String c (PyStr.rstrip s')) then EmptyString
  else String c (PyStr.rstrip s').
Proof. reflexivity. Qed.

(** One step of [lstrip]: nothing to strip, or one whitespace character
    goes. *)
Lemma lstrip_cases (s : string) :
  PyStr.lstrip s = s \/
  exists ch rest,
    In ch PyStr.WHITESPACE /\ s = String.append ch rest /\
    PyStr.lstrip s = PyStr.lstrip rest /\
    (String.length rest < String.length s)%nat.
Proof.
  destruct s as [| c s1]; [left; reflexivity |].
  rewrite lstrip_eq.
  destruct (PyStr.isspace (String c EmptyString)) eqn:E1.
  { right. exists (String c EmptyString), s1. apply isspace_In in E1.
    repeat split; [exact E1 | simpl; lia]. }
  destruct s1 as [| d s2]; [left; reflexivity |].
  destruct (PyStr.isspace (String c (String d EmptyString))) eqn:E2.
  { right. exists (String c (String d EmptyString)), s2.
    apply isspace_In in E2. repeat split; [exact E2 | simpl; lia]. }
  destruct s2 as [| e s3]; [left; reflexivity |].
  destruct (PyStr.isspace (String c (String d (String e EmptyString))))
    eqn:E3; [| left; reflexivity].
  right. exists (String c (String d (String e EmptyString))), s3.
  apply isspace_In in E3. repeat split; [exact E3 | simpl; lia].
Qed.

Lemma string_length_ind (P : string -> Prop) :
  (forall s, (forall t, (String.length t < String.length s)%nat -> P t) ->
             P s) ->
  forall s, P s.
Proof.
  intros H s.
  assert (Hn : forall n t, (String.length t < n)%nat -> P t).
  { induction n as [| n IH]; intros t Ht; [lia |].
    apply H. intros u Hu. apply IH. lia. }
  apply (Hn (S (String.length s))). lia.
Qed.

Lemma string_append_length (a b : string) :
  String.length (String.append a b) =
  (String.length a + String.length b)%nat.
Proof.
  induction a as [| c a IH]; simpl; [reflexivity | f_equal; exact IH].
Qed.

Lemma string_append_bytes (a b : string) :
  list_ascii_of_string (String.append a b) =
  list_ascii_of_string a ++ list_ascii_of_string b.
Proof.
  induction a as [| c a IH]; simpl; [reflexivity | f_equal; exact IH].
Qed.

Lemma string_append_assoc (a b c : string) :
  String.append (String.append a b) c = String.append a (String.append b c).
Proof.
  induction a as [| x a IH]; simpl; [reflexivity | f_equal; exact IH].
Qed.

(** [lstrip] returns an end of its argument, [rstrip] a beginning. *)
Lemma lstrip_suffix (s : string) :
  exists p, s = String.append p (PyStr.lstrip s).
Proof.
  induction s as [s IH] using string_length_ind.
  destruct (lstrip_cases s) as [E | (ch & rest & _ & Hs & E & Hlen)].
  - exists EmptyString. rewrite E. reflexivity.
  - destruct (IH rest Hlen) as [p Hp]. exists (String.append ch p).
    rewrite E, string_append_assoc, <- Hp. exact Hs.
Qed.

Lemma rstrip_prefix (s : string) :
  exists z, s = String.append (PyStr.rstrip s) z.
Proof.
  induction s as [| c s IH]; [exists EmptyString; reflexivity |].
  destruct IH as [z Hz]. rewrite rstrip_eq.
  destruct (PyStr.isspace _).
  - exists (String c s). reflexivity.
  - exists z. simpl. f_equal. exact Hz.
Qed.

Lemma lstrip_length (s : string) :
  (String.length (PyStr.lstrip s) <= String.length s)%nat.
Proof.
  destruct (lstrip_suffix s) as [p Hp].
  rewrite Hp at 2. rewrite string_append_length. lia.
Qed.

Lemma rstrip_length (s : string) :
  (String.length (PyStr.rstrip s) <= String.length s)%nat.
Proof.
  destruct (rstrip_prefix s) as [z Hz].
  rewrite Hz at 2. rewrite string_append_length. lia.
Qed.

Lemma lstrip_In (s : string) (c : ascii) :
  In c (list_ascii_of_string (PyStr.lstrip s)) ->
  In c (list_ascii_of_string s).
Proof.
  destruct (lstrip_suffix s) as [p Hp]. intros H.
  rewrite Hp, string_append_bytes. apply in_or_app. right. exact H.
Qed.

Lemma rstrip_In (s : string) (c : ascii) :
  In c (list_ascii_of_string (PyStr.rstrip s)) ->
  In c (list_ascii_of_string s).
Proof.
  destruct (rstrip_prefix s) as [z Hz]. intros H.
  rewrite Hz, string_append_bytes. apply in_or_app. left. exact H.
Qed.

Lemma rstrip_idem (s : string) : PyStr.rstrip (PyStr.rstrip s) = PyStr.rstrip s.
Proof.
  induction s as [| c s IH]; [reflexivity |].
  rewrite rstrip_eq.
  destruct (PyStr.isspace (String c (PyStr.rstrip s))) eqn:E; [reflexivity |].
  rewrite rstrip_eq, IH, E. reflexivity.
Qed.

(** A text that does not begin with whitespace still does not once its end
    is stripped. *)
Lemma lstrip_fixed_rstrip (v : string) :
  PyStr.lstrip v = v -> PyStr.lstrip (PyStr.rstrip v) = PyStr.rstrip v.
Proof.
  intros Hv.
  destruct (lstrip_cases (PyStr.rstrip v))
    as [E | (ch & rest & Hch & Hr & _ & _)]; [exact E |].
  exfalso.
  destruct (rstrip_prefix v) as [z Hz].
  rewrite Hr, string_append_assoc in Hz.
  pose proof (lstrip_space_app ch (String.append rest z) Hch) as Hl.
  rewrite <- Hz, Hv in Hl.
  pose proof (lstrip_length (String.append rest z)) as Hlen.
  rewrite <- Hl in Hlen. rewrite Hz in Hlen at 1.
  rewrite string_append_length in Hlen.
  assert (Hpos : (0 < String.length ch)%nat).
  { revert Hch. unfold PyStr.WHITESPACE. simpl In. intros H.
    repeat (destruct H as [<- | H]; [simpl; lia |]). destruct H. }
  lia.
Qed.

Lemma lstrip_idem (s : string) : PyStr.lstrip (PyStr.lstrip s) = PyStr.lstrip s.
Proof.
  induction s as [s IH] using string_length_ind.
  destruct (lstrip_cases s) as [E | (ch & rest & _ & _ & E & Hlen)].
  - rewrite E. exact E.
  - rewrite E. apply IH. exact Hlen.
Qed.

Lemma strip_idem (s : string) : PyStr.strip (PyStr.strip s) = PyStr.strip s.
Proof.
  unfold PyStr.strip.
  rewrite (lstrip_fixed_rstrip _ (lstrip_idem s)). apply rstrip_idem.
Qed.

Lemma lower_char_idem (c : ascii) :
  PyStr.lower_char (PyStr.lower_char c) = PyStr.lower_char c.
Proof.
  destruct c as [[] [] [] [] [] [] [] []]; reflexivity.
Qed.

Lemma lower_idem (s : string) : PyStr.lower (PyStr.lower s) = PyStr.lower s.
Proof.
  induction s as [| c s IH]; simpl; [reflexivity |].
  rewrite lower_char_idem, IH. reflexivity.
Qed.

(** A byte that is no letter is its own lowercase form, and of nothing
    else. *)
Lemma lower_char_no_letter (c k : ascii) :
  ((nat_of_ascii k <? 65) || (122 <? nat_of_ascii k))%nat = true ->
  PyStr.lower_char k = k /\ (PyStr.lower_char c = k -> c = k).
Proof.
  intros Hk. split.
  - revert Hk.
    destruct k as [[] [] [] [] [] [] [] []]; intros H;
      try reflexivity; discriminate H.
  - intros <-. revert Hk.
    destruct c as [[] [] [] [] [] [] [] []]; intros H;
      try reflexivity; discriminate H.
Qed.

Lemma lower_no_letter (t w : string) :
  forallb (fun k => ((nat_of_ascii k <? 65) || (122 <? nat_of_ascii k))%nat)
          (list_ascii_of_string w) = true ->
  PyStr.lower w = w /\ (PyStr.lower t = w -> t = w).
Proof.
  revert t. induction w as [| k w IH]; intros t H.
  - split; [reflexivity |]. destruct t; [reflexivity | discriminate].
  - simpl in H. apply andb_true_iff in H as [Hk Hw]. split.
    + simpl. rewrite (proj1 (lower_char_no_letter k k Hk)).
      rewrite (proj1 (IH w Hw)). reflexivity.
    + destruct t as [| c t]; [discriminate |]. simpl. intros E.
      injection E as Ec Et.
      rewrite (proj2 (lower_char_no_letter c k Hk) Ec).
      rewrite (proj2 (IH t Hw) Et). reflexivity.
Qed.

Lemma whitespace_no_letter (w : string) :
  In w PyStr.WHITESPACE ->
  forallb (fun k => ((nat_of_ascii k <? 65) || (122 <? nat_of_ascii k))%nat)
          (list_ascii_of_string w) = true.
Proof.
  unfold PyStr.WHITESPACE. simpl In. intros H.
  repeat (destruct H as [<- | H]; [reflexivity |]). destruct H.
Qed.

Lemma isspace_lower (t : string) :
  PyStr.isspace (PyStr.lower t) = PyStr.isspace t.
Proof.
  apply eq_true_iff_eq. rewrite !isspace_In. split; intros H.
  - rewrite <- (proj2 (lower_no_letter t _ (whitespace_no_letter _ H))
                  eq_refl) in H.
    exact H.
  - rewrite (proj1 (lower_no_letter t t (whitespace_no_letter _ H))).
    exact H.
Qed.

Lemma lstrip_lower (s : string) :
  PyStr.lstrip (PyStr.lower s) = PyStr.lower (PyStr.lstrip s).
Proof.
  induction s as [s IH] using string_length_ind.
  destruct s as [| c s1]; [reflexivity |].
  change (PyStr.lower (String c s1))
    with (String (PyStr.lower_char c) (PyStr.lower s1)).
  rewrite !lstrip_eq.
  change (String (PyStr.lower_char c) EmptyString)
    with (PyStr.lower (String c EmptyString)).
  rewrite isspace_lower.
  destruct (PyStr.isspace (String c EmptyString));
    [apply IH; simpl; lia |].
  destruct s1 as [| d s2]; [reflexivity |].
  change (PyStr.lower (String d s2))
    with (String (PyStr.lower_char d) (PyStr.lower s2)).
  cbv beta iota.
  change (String (PyStr.lower_char c) (String (PyStr.lower_char d) EmptyString))
    with (PyStr.lower (String c (String d EmptyString))).
  rewrite isspace_lower.
  destruct (PyStr.isspace (String c (String d EmptyString)));
    [apply IH; simpl; lia |].
  destruct s2 as [| e s3]; [reflexivity |].
  change (PyStr.lower (String e s3))
    with (String (PyStr.lower_char e) (PyStr.lower s3)).
  cbv beta iota.
  change (String (PyStr.lower_char c)
            (String (PyStr.lower_char d)
               (String (PyStr.lower_char e) EmptyString)))
    with (PyStr.lower (String c (String d (String e EmptyString)))).
  rewrite isspace_lower.
  destruct (PyStr.isspace (String c (String d (String e EmptyString))));
    [apply IH; simpl; lia | reflexivity].
Qed.

Lemma rstrip_lower (s : string) :
  PyStr.rstrip (PyStr.lower s) = PyStr.lower (PyStr.rstrip s).
Proof.
  induction s as [| c s IH]; [reflexivity |].
  change (PyStr.lower (String c s))
    with (String (PyStr.lower_char c) (PyStr.lower s)).
  rewrite !rstrip_eq, IH.
  change (String (PyStr.lower_char c) (PyStr.lower (PyStr.rstrip s)))
    with (PyStr.lower (String c (PyStr.rstrip s))).
  rewrite isspace_lower.
  destruct (PyStr.isspace (String c (PyStr.rstrip s))); reflexivity.
Qed.

Lemma strip_lower (s : string) :
  PyStr.strip (PyStr.lower s) = PyStr.lower (PyStr.strip s).
Proof.
  unfold PyStr.strip. rewrite lstrip_lower. apply rstrip_lower.
Qed.

Lemma is_empty_lower (s : string) :
  PyStr.is_empty (PyStr.lower s) = PyStr.is_empty s.
Proof. destruct s; reflexivity. Qed.

(** X1. For a query whose text, once stripped, is made of ASCII characters,
    [recommend] reads it up to case and surrounding whitespace: the query
    and its stripped, lowercased form give the same result. *)
Theorem recommend_query_normal_form
        (partial_ratio : string -> string -> Z)
        (re_compile : string -> option (string -> bool))
        (df : list Drama) (cosine_sim : list (list Q))
        (q : string) (n : Z) :
  PyStr.is_ascii (PyStr.strip q) = true ->
  recommend partial_ratio re_compile df cosine_sim
    (PyStr (PyStr.lower (PyStr.strip q))) n =
  recommend partial_ratio re_compile df cosine_sim (PyStr q) n.
Proof.
  intros _. unfold recommend. simpl py_str.
  rewrite strip_lower, strip_idem, lower_idem. reflexivity.
Qed.

(* ------------------------------------------------------------------ *)
(** ** The head of a stable descending sort *)

Section SortedHead.

Context {K : Type}.
Variable geb : K -> K -> bool.
Hypothesis geb_total : forall a b, geb a b = false -> geb b a = true.
Hypothesis geb_trans :
  forall a b c, geb a b = true -> geb b c = true -> geb a c = true.

Lemma geb_refl (a : K) : geb a a = true.
Proof.
  destruct (geb a a) eqn:E; [reflexivity |].
  rewrite (geb_total a a E) in E. discriminate E.
Qed.

(** The first element of the sorted enumeration is the first position that
    holds a largest key. *)
Lemma sorted_enumerate_head (ks : list K) :
  forall k i s rest,
    PySeq.sorted_reverse geb snd (PySeq.enumerate_from k ks) = (i, s) :: rest ->
    (k <= i)%nat /\ nth_error ks (i - k) = Some s /\
    forall j t, nth_error ks j = Some t ->
                geb s t = true /\ ((k + j < i)%nat -> geb t s = false).
Proof.
  induction ks as [| x ks IH]; intros k i s rest H; simpl in H;
    [discriminate H |].
  destruct (PySeq.sorted_reverse geb snd (PySeq.enumerate_from (S k) ks))
    as [| [ih sh] tl] eqn:E.
  - simpl in H. injection H as <- <- <-.
    assert (Hks : ks = []).
    { pose proof (sorted_reverse_perm geb (@snd nat K)
                    (PySeq.enumerate_from (S k) ks)) as Hp.
      rewrite E in Hp. apply Permutation_nil in Hp.
      destruct ks; [reflexivity | discriminate Hp]. }
    subst ks. rewrite Nat.sub_diag. split; [lia |]. split; [reflexivity |].
    intros j t Hj. destruct j as [| j]; simpl in Hj.
    + injection Hj as <-. split; [apply geb_refl | lia].
    + destruct j; discriminate Hj.
  - destruct (IH (S k) ih sh tl E) as (Hle & Hnth & Hall).
    simpl in H. destruct (geb x sh) eqn:G.
    + injection H as <- <- <-. rewrite Nat.sub_diag.
      split; [lia |]. split; [reflexivity |].
      intros j t Hj. destruct j as [| j]; simpl in Hj.
      * injection Hj as <-. split; [apply geb_refl | lia].
      * split; [| lia]. apply (geb_trans _ sh); [exact G |].
        apply (Hall j t Hj).
    + injection H as <- <- <-.
      split; [lia |]. split.
      * replace (ih - k)%nat with (S (ih - S k)) by lia. exact Hnth.
      * intros j t Hj. destruct j as [| j]; simpl in Hj.
        -- injection Hj as <-. split; [apply geb_total; exact G |].
           intros _. exact G.
        -- destruct (Hall j t Hj) as [H1 H2]. split; [exact H1 |].
           intros Hlt. apply H2. lia.
Qed.

End SortedHead.

Lemma Zgeb_total (a b : Z) : Z.geb a b = false -> Z.geb b a = true.
Proof.
  rewrite !Z.geb_leb. intros H. apply Z.leb_le. apply Z.leb_gt in H. lia.
Qed.

Lemma Zgeb_trans (a b c : Z) :
  Z.geb a b = true -> Z.geb b c = true -> Z.geb a c = true.
Proof. rewrite !Z.geb_leb, !Z.leb_le. lia. Qed.

Lemma Qgeb_total (a b : Q) : Qgeb a b = false -> Qgeb b a = true.
Proof.
  unfold Qgeb. intros H. apply Qle_bool_iff.
  destruct (Qlt_le_dec a b) as [Hlt | Hle].
  - apply Qlt_le_weak. exact Hlt.
  - apply Qle_bool_iff in Hle. congruence.
Qed.

Lemma Qgeb_trans (a b c : Q) :
  Qgeb a b = true -> Qgeb b c = true -> Qgeb a c = true.
Proof.
  unfold Qgeb. rewrite !Qle_bool_iff. intros H1 H2.
  apply (Qle_trans _ b); assumption.
Qed.

(* ------------------------------------------------------------------ *)
(** ** Which record is the strong match *)

Section StrongMatch.

Variable partial_ratio : string -> string -> Z.
Variable df : list Drama.

Lemma strong_match_some_inv (query : string) (idx : nat) :
  strong_match (fuzzy_matches partial_ratio df query) = Some idx ->
  exists blob,
    nth_error (search_space df) idx = Some blob /\
    (80 < partial_ratio query blob)%Z /\
    forall j other,
      nth_error (search_space df) j = Some other ->
      (partial_ratio query other <= partial_ratio query blob)%Z /\
      ((j < idx)%nat ->
       (partial_ratio query other < partial_ratio query blob)%Z).
Proof.
  unfold strong_match, fuzzy_matches, PySeq.enumerate. intros H.
  destruct (PySeq.sorted_reverse _ _ _) as [| [i s] rest] eqn:E;
    [discriminate H |].
  destruct (Z.ltb_spec 80 s) as [Hs |]; [| discriminate H].
  injection H as <-.
  destruct (sorted_enumerate_head Z.geb Zgeb_total Zgeb_trans _ _ _ _ _ E)
    as (_ & Hnth & Hall).
  rewrite Nat.sub_0_r, nth_error_map in Hnth.
  destruct (nth_error (search_space df) i) as [blob |] eqn:Eb;
    [| discriminate Hnth].
  injection Hnth as <-. exists blob. repeat split; [exact Hs | |].
  - assert (Hj : nth_error (map (partial_ratio query) (search_space df)) j
                 = Some (partial_ratio query other))
      by (rewrite nth_error_map, H; reflexivity).
    destruct (Hall _ _ Hj) as [Hge _].
    rewrite Z.geb_leb in Hge. apply Z.leb_le. exact Hge.
  - intros Hlt.
    assert (Hj : nth_error (map (partial_ratio query) (search_space df)) j
                 = Some (partial_ratio query other))
      by (rewrite nth_error_map, H; reflexivity).
    destruct (Hall _ _ Hj) as [_ Hgt]. specialize (Hgt Hlt).
    rewrite Z.geb_leb in Hgt. apply Z.leb_gt in Hgt. exact Hgt.
Qed.

Lemma strong_match_none_inv (query : string) :
  strong_match (fuzzy_matches partial_ratio df query) = None ->
  forall blob, In blob (search_space df) ->
               (partial_ratio query blob <= 80)%Z.
Proof.
  unfold strong_match, fuzzy_matches, PySeq.enumerate. intros H blob Hin.
  destruct (PySeq.sorted_reverse _ _ _) as [| [i s] rest] eqn:E.
  - pose proof (sorted_reverse_perm Z.geb (@snd nat Z)
        (PySeq.enumerate_from 0
           (map (partial_ratio query) (search_space df)))) as Hp.
    rewrite E in Hp. apply Permutation_nil in Hp.
    destruct (search_space df); [destruct Hin | discriminate Hp].
  - destruct (Z.ltb_spec 80 s) as [| Hs]; [discriminate H |].
    destruct (sorted_enumerate_head Z.geb Zgeb_total Zgeb_trans _ _ _ _ _ E)
      as (_ & _ & Hall).
    apply In_nth_error in Hin as [j Hj].
    assert (Hj' : nth_error (map (partial_ratio query) (search_space df)) j
                  = Some (partial_ratio query blob))
      by (rewrite nth_error_map, Hj; reflexivity).
    destruct (Hall _ _ Hj') as [Hge _].
    rewrite Z.geb_leb in Hge. apply Z.leb_le in Hge. lia.
Qed.

(** X2. The strong match is the first record with the best score: its blob
    scores above 80, no blob scores higher, and every blob before it scores
    lower. *)
Theorem strong_match_first_best (query : string) (idx : nat) :
  strong_match (fuzzy_matches partial_ratio df query) = Some idx ->
  exists blob,
    nth_error (search_space df) idx = Some blob /\
    (80 < partial_ratio query blob)%Z /\
    forall j other,
      nth_error (search_space df) j = Some other ->
      (partial_ratio query other <= partial_ratio query blob)%Z /\
      ((j < idx)%nat ->
       (partial_ratio query other < partial_ratio query blob)%Z).
Proof. exact (strong_match_some_inv query idx). Qed.

(** X3. The keyword branch runs exactly when no blob scores above 80: one
    blob above 80 is enough for the title branch. *)
Theorem strong_match_none_iff (query : string) :
  strong_match (fuzzy_matches partial_ratio df query) = None <->
  forall blob, In blob (search_space df) ->
               (partial_ratio query blob <= 80)%Z.
Proof.
  split; [apply strong_match_none_inv | apply strong_match_none].
Qed.

End StrongMatch.

(* ------------------------------------------------------------------ *)
(** ** The records recommended on a title match *)

Lemma enumerate_from_nth_error {A : Type} (l : list A) :
  forall k i x, In (i, x) (PySeq.enumerate_from k l) ->
                (k <= i)%nat /\ nth_error l (i - k) = Some x.
Proof.
  induction l as [| y l IH]; simpl; intros k i x H; [destruct H |].
  destruct H as [H | H].
  - injection H as <- <-. rewrite Nat.sub_diag. split; [lia | reflexivity].
  - destruct (IH (S k) i x H) as [Hle Hn]. split; [lia |].
    replace (i - k)%nat with (S (i - S k)) by lia. exact Hn.
Qed.

Lemma py_slice_map {A B : Type} (f : A -> B) (l : list A) (a b : Z) :
  map f (PySeq.py_slice l a b) = PySeq.py_slice (map f l) a b.
Proof.
  unfold PySeq.py_slice. rewrite length_map, skipn_map, firstn_map.
  reflexivity.
Qed.

Lemma py_slice_In {A : Type} (l : list A) (a b : Z) (x : A) :
  In x (PySeq.py_slice l a b) -> In x l.
Proof.
  unfold PySeq.py_slice. intros H.
  set (s := Z.to_nat (PySeq.adjust (Z.of_nat (length l)) a)) in *.
  rewrite <- (firstn_skipn s l). apply in_or_app. right.
  set (t := skipn s l) in *.
  rewrite <- (firstn_skipn
                (Z.to_nat (PySeq.adjust (Z.of_nat (length l)) b
                           - PySeq.adjust (Z.of_nat (length l)) a)) t).
  apply in_or_app. left. exact H.
Qed.

Lemma NoDup_py_slice {A : Type} (l : list A) (a b : Z) :
  NoDup l -> NoDup (PySeq.py_slice l a b).
Proof.
  unfold PySeq.py_slice. intros H.
  set (s := Z.to_nat (PySeq.adjust (Z.of_nat (length l)) a)).
  rewrite <- (firstn_skipn s l) in H. apply NoDup_app_remove_l in H.
  set (t := skipn s l) in *.
  set (k := Z.to_nat _).
  rewrite <- (firstn_skipn k t) in H. apply NoDup_app_remove_r in H.
  exact H.
Qed.

(** A slice that starts at 1 holds nothing of the first element's place. *)
Lemma py_slice_from_one {A : Type} (h : A) (t : list A) (e : Z) (x : A) :
  In x (PySeq.py_slice (h :: t) 1 e) -> In x t.
Proof.
  unfold PySeq.py_slice. rewrite (adjust_nonneg _ 1) by lia.
  replace (Z.to_nat (Z.min 1 (Z.of_nat (length (h :: t))))) with 1%nat
    by (simpl length; lia).
  simpl skipn. intros H.
  rewrite <- (firstn_skipn
                (Z.to_nat (PySeq.adjust (Z.of_nat (length (h :: t))) e
                           - Z.min 1 (Z.of_nat (length (h :: t))))) t).
  apply in_or_app. left. exact H.
Qed.

Lemma sorted_row_fst (row : list Q) :
  Permutation
    (map fst (PySeq.sorted_reverse Qgeb snd (PySeq.enumerate row)))
    (seq 0 (length row)).
Proof.
  unfold PySeq.enumerate. rewrite <- (enumerate_from_fst row 0).
  apply Permutation_map, sorted_reverse_perm.
Qed.

Lemma sorted_row_entries (row : list Q) :
  Forall (fun p => nth (fst p) row 0%Q = snd p)
         (PySeq.sorted_reverse Qgeb snd (PySeq.enumerate row)).
Proof.
  eapply Permutation_Forall;
    [apply Permutation_sym, sorted_reverse_perm |].
  apply Forall_forall. intros [i x] Hin.
  apply enumerate_from_nth_error in Hin as [_ Hn].
  rewrite Nat.sub_0_r in Hn. simpl. apply nth_error_nth. exact Hn.
Qed.

Lemma similar_indices_facts (row : list Q) (n : Z) :
  NoDup (similar_indices row n) /\
  Forall (fun i => (i < length row)%nat) (similar_indices row n) /\
  Sorted (fun i j => Qgeb (nth i row 0%Q) (nth j row 0%Q) = true)
         (similar_indices row n) /\
  ((0 <= n)%Z ->
   length (similar_indices row n) =
   Nat.min (Z.to_nat n) (length row - 1)).
Proof.
  unfold similar_indices. split; [| split; [| split]].
  - rewrite py_slice_map. apply NoDup_py_slice.
    eapply Permutation_NoDup;
      [apply Permutation_sym, sorted_row_fst | apply seq_NoDup].
  - rewrite py_slice_map. apply Forall_forall. intros i Hi.
    apply py_slice_In in Hi.
    apply (Permutation_in _ (sorted_row_fst row)), in_seq in Hi. lia.
  - apply Sorted_map_Forall
      with (R := PySeq.desc Qgeb snd)
           (P := fun p => nth (fst p) row 0%Q = snd p).
    + intros [i x] [j y]; unfold PySeq.desc; simpl. intros -> ->. trivial.
    + apply Forall_forall. intros p Hp. apply py_slice_In in Hp.
      revert p Hp. apply Forall_forall, sorted_row_entries.
    + apply Sorted_py_slice, sorted_reverse_sorted. apply Qgeb_total.
  - intros Hn. rewrite length_map.
    replace (n + 1)%Z with (1 + n)%Z by lia.
    rewrite py_slice_nonneg by lia.
    rewrite length_firstn, length_skipn.
    rewrite <- (length_map fst), (Permutation_length (sorted_row_fst row)).
    rewrite length_seq. reflexivity.
Qed.

(** X4. The indices recommended on a title match are positions of the
    similarity row, no position twice, in descending order of similarity;
    for a count [n >= 0] there are exactly [n] of them, or one fewer than
    the row is long when that is less. *)
Theorem similar_indices_spec (row : list Q) (n : Z) :
  NoDup (similar_indices row n) /\
  Forall (fun i => (i < length row)%nat) (similar_indices row n) /\
  Sorted (fun i j => Qgeb (nth i row 0%Q) (nth j row 0%Q) = true)
         (similar_indices row n) /\
  ((0 <= n)%Z ->
   length (similar_indices row n) =
   Nat.min (Z.to_nat n) (length row - 1)).
Proof. exact (similar_indices_facts row n). Qed.

(** X5. When the matched record leads its own row (every earlier record is
    strictly less similar to it than it is to itself, and no record is more
    similar), it is not among the recommended indices, whatever the
    count. *)
Theorem similar_indices_excludes_leader (row : list Q) (idx : nat) (s : Q)
        (n : Z) :
  nth_error row idx = Some s ->
  (forall j t, nth_error row j = Some t -> (t <= s)%Q) ->
  (forall j t, (j < idx)%nat -> nth_error row j = Some t -> (t < s)%Q) ->
  ~ In idx (similar_indices row n).
Proof.
  intros Hs Hle Hlt Hin. unfold similar_indices in Hin.
  pose proof (sorted_row_fst row) as Hperm.
  destruct (PySeq.sorted_reverse Qgeb snd (PySeq.enumerate row))
    as [| [i s'] rest] eqn:E.
  - rewrite py_slice_map in Hin. apply py_slice_In in Hin. destruct Hin.
  - unfold PySeq.enumerate in E.
    destruct (sorted_enumerate_head Qgeb Qgeb_total Qgeb_trans _ _ _ _ _ E)
      as (_ & Hi & Hall).
    rewrite Nat.sub_0_r in Hi.
    assert (Hidx : i = idx).
    { destruct (Nat.lt_trichotomy i idx) as [Hc | [Hc | Hc]]; [| exact Hc |].
      - specialize (Hlt i s' Hc Hi).
        destruct (Hall idx s Hs) as [Hge _].
        unfold Qgeb in Hge. apply Qle_bool_iff in Hge.
        exfalso. apply (Qlt_not_le _ _ Hlt). exact Hge.
      - destruct (Hall idx s Hs) as [_ Hnot]. specialize (Hnot Hc).
        specialize (Hle i s' Hi). apply Qle_bool_iff in Hle.
        unfold Qgeb in Hnot. congruence. }
    subst i.
    assert (Hnd : NoDup (idx :: map fst rest)).
    { eapply Permutation_NoDup;
        [apply Permutation_sym, Hperm | apply seq_NoDup]. }
    apply NoDup_cons_iff in Hnd as [Hnot _]. apply Hnot.
    apply in_map_iff in Hin as ([j t] & Hj & Hin). simpl in Hj. subst j.
    apply py_slice_from_one in Hin.
    apply in_map_iff. exists (idx, t). split; [reflexivity | exact Hin].
Qed.

Lemma mapM_iloc_total {A : Type} (df : list A) (ixs : list nat) :
  Forall (fun i => (i < length df)%nat) ixs ->
  exists recs, mapM (iloc df) ixs = Ok recs /\
               Forall2 (fun i r => nth_error df i = Some r) ixs recs.
Proof.
  induction 1 as [| i ixs Hi _ IH]; simpl.
  - exists []. split; [reflexivity | constructor].
  - destruct IH as (recs & Hm & Hf).
    destruct (nth_error df i) as [r |] eqn:E;
      [| apply nth_error_None in E; lia].
    exists (r :: recs). unfold iloc at 1. rewrite E. simpl. rewrite Hm.
    split; [reflexivity | constructor; assumption].
Qed.

Section TitleBranch.

Variable partial_ratio : string -> string -> Z.
Variable re_compile : string -> option (string -> bool).
Variable df : list Drama.
Variable cosine_sim : list (list Q).

Lemma title_branch_ok (idx : nat) (r : Drama) (row : list Q) (n : Z) :
  nth_error df idx = Some r ->
  nth_error cosine_sim idx = Some row ->
  length row = length df ->
  exists recs,
    title_branch df cosine_sim idx n = Ok (header_for (Title r), recs) /\
    Forall2 (fun i rec => nth_error df i = Some rec)
            (similar_indices row n) recs.
Proof.
  intros Hr Hrow Hlen. unfold title_branch, iloc at 1 2.
  rewrite Hr, Hrow. simpl.
  destruct (mapM_iloc_total df (similar_indices row n)) as (recs & Hm & Hf).
  - rewrite <- Hlen. apply similar_indices_facts.
  - exists recs. unfold similar_indices in Hm. rewrite Hm.
    split; [reflexivity | exact Hf].
Qed.

(** X6. On a title match whose similarity row is as long as the catalog,
    nothing is raised: the header names the matched title, and the records
    returned are the catalog rows at the recommended indices, in that
    order. *)
Theorem title_branch_returns (idx : nat) (r : Drama) (row : list Q) (n : Z) :
  nth_error df idx = Some r ->
  nth_error cosine_sim idx = Some row ->
  length row = length df ->
  exists recs,
    title_branch df cosine_sim idx n = Ok (header_for (Title r), recs) /\
    Forall2 (fun i rec => nth_error df i = Some rec)
            (similar_indices row n) recs.
Proof. exact (title_branch_ok idx r row n). Qed.

(** X7. With a similarity matrix of the catalog's size, [recommend] raises
    in one case only: there is no strong match and the normalised query is
    not a valid pattern.  No index is ever out of range. *)
Theorem recommend_raises_only_re_error (query : pyval) (n : Z) (e : exn) :
  length cosine_sim = length df ->
  Forall (fun row => length row = length df) cosine_sim ->
  recommend partial_ratio re_compile df cosine_sim query n = Raise e ->
  e = re_error /\
  re_compile (PyStr.lower (PyStr.strip (py_str query))) = None /\
  strong_match
    (fuzzy_matches partial_ratio df
       (PyStr.lower (PyStr.strip (py_str query)))) = None.
Proof.
  intros Hrows Hcols. unfold recommend.
  set (q := PyStr.lower (PyStr.strip (py_str query))).
  destruct (PyStr.is_empty q); [discriminate |].
  destruct (strong_match _) as [idx |] eqn:Em.
  - intros H. exfalso.
    apply strong_match_some_inv in Em as (blob & Hb & _).
    assert (Hidx : (idx < length df)%nat).
    { assert (Hs : nth_error (search_space df) idx <> None) by congruence.
      apply nth_error_Some in Hs.
      unfold search_space in Hs. rewrite length_map in Hs. exact Hs. }
    destruct (nth_error df idx) as [r |] eqn:Er;
      [| apply nth_error_None in Er; lia].
    destruct (nth_error cosine_sim idx) as [row |] eqn:Ec;
      [| apply nth_error_None in Ec; lia].
    assert (Hlen : length row = length df).
    { apply nth_error_In in Ec. revert row Ec.
      apply Forall_forall. exact Hcols. }
    destruct (title_branch_ok idx r row n Er Ec Hlen) as (recs & Ht & _).
    congruence.
  - unfold keyword_branch, str_contains.
    destruct (re_compile q) as [found |]; simpl.
    + intros H. exfalso.
      unfold filtered_index, search_space, PySeq.enumerate in H.
      rewrite map_map in H.
      pose proof (mapM_iloc_filtered (fun r => found (search_blob r)) df [])
        as Hall. simpl in Hall.
      destruct (map fst _) as [| i rest]; [discriminate H |].
      unfold PySeq.py_slice in H.
      rewrite (adjust_nonneg _ 0) in H by lia.
      replace (Z.to_nat (Z.min 0 (Z.of_nat (length (i :: rest)))))
        with 0%nat in H by lia.
      cbv beta iota delta [skipn] in H.
      rewrite (mapM_firstn _ _ _ _ Hall) in H. discriminate H.
    + intros H. injection H as <-. repeat split.
Qed.

End TitleBranch.

(* ------------------------------------------------------------------ *)
(** ** The keyword branch, and the page around [recommend] *)

Lemma header_for_not_keyword_message (t : option string) :
  header_for t <> MSG_KEYWORD.
Proof.
  unfold header_for, MSG_KEYWORD. simpl. discriminate.
Qed.

Lemma filter_none {A : Type} (f : A -> bool) (l : list A) :
  (forall x, In x l -> f x = false) -> filter f l = [].
Proof.
  induction l as [| x l IH]; simpl; intros H; [reflexivity |].
  rewrite (H x) by (left; reflexivity). apply IH.
  intros y Hy. apply H. right. exact Hy.
Qed.

Section KeywordBranch.

Variable partial_ratio : string -> string -> Z.
Variable re_compile : string -> option (string -> bool).
Variable df : list Drama.
Variable cosine_sim : list (list Q).

Lemma keyword_branch_no_hits (q : string) (found : string -> bool) (n : Z) :
  re_compile q = Some found ->
  filter (fun r => found (search_blob r)) df = [] ->
  keyword_branch re_compile df q n = Ok (MSG_NO_RESULTS, []).
Proof.
  intros Hc Hf. unfold keyword_branch, str_contains. rewrite Hc. simpl.
  unfold filtered_index, search_space, PySeq.enumerate. rewrite map_map.
  pose proof (mapM_iloc_filtered (fun r => found (search_blob r)) df [])
    as Hall. simpl in Hall. rewrite Hf in Hall.
  apply mapM_length in Hall.
  destruct (map fst _); [reflexivity | discriminate Hall].
Qed.

(** X8. When no blob scores above 80 and the normalised query compiles as a
    pattern, [recommend] returns, for a count [n >= 0], the first [n] of the
    records in whose blob the pattern is found, in catalog order, under the
    generic header; when the pattern is found in no blob it returns the
    no-results message and an empty list. *)
Theorem recommend_keyword_listing (q : string) (found : string -> bool)
        (n : Z) :
  PyStr.is_empty (PyStr.lower (PyStr.strip q)) = false ->
  (forall blob, In blob (search_space df) ->
     (partial_ratio (PyStr.lower (PyStr.strip q)) blob <= 80)%Z) ->
  re_compile (PyStr.lower (PyStr.strip q)) = Some found ->
  (0 <= n)%Z ->
  recommend partial_ratio re_compile df cosine_sim (PyStr q) n =
  match filter (fun r => found (search_blob r)) df with
  | [] => Ok (MSG_NO_RESULTS, [])
  | hits => Ok (MSG_KEYWORD, firstn (Z.to_nat n) hits)
  end.
Proof.
  intros Hne Hs Hc Hn. unfold recommend. simpl py_str.
  rewrite Hne, (strong_match_none partial_ratio df _ Hs).
  apply keyword_branch_found; assumption.
Qed.

(** X9. When the scorer gives more than 80 whenever the query occurs in a
    blob, and the pattern compiler reads the query literally, [recommend]
    never returns the keyword listing: the result is a title match, the
    no-results message, or the empty-input message. *)
Theorem recommend_literal_query_never_lists (q : string)
        (found : string -> bool) (n : Z) (h : string) (recs : list Drama) :
  (forall blob, In blob (search_space df) ->
     PyStr.contains (PyStr.lower (PyStr.strip q)) blob = true ->
     (80 < partial_ratio (PyStr.lower (PyStr.strip q)) blob)%Z) ->
  re_compile (PyStr.lower (PyStr.strip q)) = Some found ->
  (forall s, found s = PyStr.contains (PyStr.lower (PyStr.strip q)) s) ->
  recommend partial_ratio re_compile df cosine_sim (PyStr q) n =
    Ok (h, recs) ->
  h <> MSG_KEYWORD.
Proof.
  intros Hocc Hc Hf. unfold recommend. simpl py_str.
  set (q' := PyStr.lower (PyStr.strip q)) in *.
  destruct (PyStr.is_empty q').
  - intros H. injection H as <- <-. discriminate.
  - destruct (strong_match _) as [idx |] eqn:Em.
    + intros H. apply title_branch_header in H as [(r & _ & ->) _].
      apply header_for_not_keyword_message.
    + intros H.
      assert (Hs : forall blob, In blob (search_space df) ->
                     (partial_ratio q' blob <= 80)%Z)
        by (apply strong_match_none_inv; exact Em).
      rewrite (keyword_branch_no_hits q' found n Hc) in H.
      * injection H as <- <-. discriminate.
      * apply filter_none. intros r Hr. rewrite Hf.
        destruct (PyStr.contains q' (search_blob r)) eqn:E; [| reflexivity].
        pose proof (Hocc _ (in_map search_blob df r Hr) E).
        pose proof (Hs _ (in_map search_blob df r Hr)). lia.
Qed.

End KeywordBranch.

Section PageFacts.

Variable partial_ratio : string -> string -> Z.
Variable re_compile : string -> option (string -> bool).
Variable df : list Drama.
Variable cosine_sim : list (list Q).

(** X10. The Recommend button never shows the empty-input message of
    [recommend]: an input that is blank shows nothing at all, since the page
    tests it first.  What is shown as cards is never an empty list (an empty
    result is shown as a warning made of the header), and for a count
    [>= 0] holds at most that many records. *)
Theorem on_recommend_shows (user_input : string) (num_recs : Z)
        (d : display) :
  on_recommend partial_ratio re_compile df cosine_sim user_input num_recs
    = Ok d ->
  match d with
  | ShowNothing => PyStr.is_empty (PyStr.strip user_input) = true
  | ShowWarning h =>
      PyStr.is_empty (PyStr.strip user_input) = false /\
      h <> MSG_EMPTY_QUERY /\
      recommend partial_ratio re_compile df cosine_sim
        (PyStr user_input) num_recs = Ok (h, [])
  | ShowCards h recs =>
      PyStr.is_empty (PyStr.strip user_input) = false /\
      h <> MSG_EMPTY_QUERY /\ recs <> [] /\
      ((0 <= num_recs)%Z -> (Z.of_nat (length recs) <= num_recs)%Z)
  end.
Proof.
  unfold on_recommend.
  destruct (PyStr.is_empty (PyStr.strip user_input)) eqn:Eu.
  - intros H. injection H as <-. reflexivity.
  - intros H. apply bind_Ok in H as ([h recs] & Hr & H). simpl in H.
    assert (Hh : h <> MSG_EMPTY_QUERY /\
                 ((0 <= num_recs)%Z ->
                  (Z.of_nat (length recs) <= num_recs)%Z)).
    { unfold recommend in Hr. simpl py_str in Hr.
      rewrite is_empty_lower, Eu in Hr.
      destruct (strong_match _).
      - apply title_branch_header in Hr as [(r & _ & ->) Hlen].
        split; [apply header_for_not_empty_message | exact Hlen].
      - apply keyword_branch_header in Hr as [[-> | ->] Hlen];
          (split; [discriminate | exact Hlen]). }
    destruct Hh as [Hh Hlen].
    destruct recs as [| r recs]; injection H as <-.
    + repeat split; assumption.
    + repeat split; try assumption. discriminate.
Qed.

End PageFacts.

(* ------------------------------------------------------------------ *)
(** ** Paging through the ranked catalog *)



Lemma max_page_bounds (df : list Drama) :
  ((max_page df - 1) * 5 <= Z.of_nat (length df) < max_page df * 5)%Z.
Proof.
  unfold max_page.
  pose proof (Z.div_mod (Z.of_nat (length df)) 5 ltac:(lia)).
  pose proof (Z.mod_pos_bound (Z.of_nat (length df)) 5 ltac:(lia)). lia.
Qed.

Section Paging.

Variable nargsort : list float -> list nat.
Variable df : list Drama.

Hypothesis nargsort_ok :
  is_nargsort (map Personal_rating_out_of_10 df)
              (nargsort (map Personal_rating_out_of_10 df)).



(** X12. Every page before the last one offered holds exactly 5 records;
    the last one, [len(df) // 5 + 1], holds the [len(df) % 5] that remain,
    so it is empty when the catalog size is a multiple of 5. *)
Theorem get_top_rated_page_sizes (page : Z) :
  (1 <= page <= max_page df)%Z ->
  Z.of_nat (length (get_top_rated nargsort df page 5)) =
  (if (page <? max_page df)%Z then 5 else Z.of_nat (length df) mod 5)%Z.
Proof.
  intros Hp.
  pose proof (sort_values_perm nargsort df nargsort_ok) as Hperm.
  unfold get_top_rated.
  replace (page * 5)%Z with ((page - 1) * 5 + 5)%Z by lia.
  rewrite py_slice_nonneg by lia. rewrite length_firstn, length_skipn.
  rewrite (Permutation_length Hperm).
  pose proof (max_page_bounds df) as Hb.
  destruct (Z.ltb_spec page (max_page df)) as [Hlt | Hge].
  - nia.
  - assert (page = max_page df) by lia. subst page.
    unfold max_page in *.
    pose proof (Z.div_mod (Z.of_nat (length df)) 5 ltac:(lia)).
    pose proof (Z.mod_pos_bound (Z.of_nat (length df)) 5 ltac:(lia)).
    lia.
Qed.

End Paging.

(** X13. Page 0 is empty for every page size and every catalog: its slice
    ends at position 0. *)
Theorem get_top_rated_page_zero (nargsort : list float -> list nat)
        (df : list Drama) (per_page : Z) :
  get_top_rated nargsort df 0 per_page = [].
Proof.
  unfold get_top_rated, PySeq.py_slice.
  set (len := Z.of_nat (length (sort_values nargsort df))).
  assert (Hlen : (0 <= len)%Z) by (unfold len; lia).
  pose proof (adjust_range len ((0 - 1) * per_page) Hlen) as Hs.
  replace (PySeq.adjust len (0 * per_page)) with 0%Z
    by (simpl; unfold PySeq.adjust; simpl; lia).
  replace (Z.to_nat (0 - PySeq.adjust len ((0 - 1) * per_page))) with 0%nat
    by lia.
  reflexivity.
Qed.

(* ------------------------------------------------------------------ *)
(** ** Catalog loading: column names and genre markers *)

Module LoadingFacts.

Import Loading.
Local Open Scope string_scope.

Lemma remove_chars_In (drop : ascii -> bool) (s : string) (c : ascii) :
  In c (list_ascii_of_string (remove_chars drop s)) ->
  drop c = false /\ In c (list_ascii_of_string s).
Proof.
  induction s as [| d s IH]; simpl; intros H; [destruct H |].
  destruct (drop d) eqn:E.
  - destruct (IH H) as [H1 H2]. auto.
  - destruct H as [<- | H]; [auto |]. destruct (IH H) as [H1 H2]. auto.
Qed.

Lemma replace_char_In (old new : ascii) (s : string) (c : ascii) :
  In c (list_ascii_of_string (replace_char old new s)) ->
  c = new \/ c <> old.
Proof.
  induction s as [| d s IH]; simpl; intros H; [destruct H |].
  destruct H as [<- | H]; [| exact (IH H)].
  destruct (Ascii.eqb_spec d old); [left; reflexivity | right; assumption].
Qed.

Lemma remove_chars_length (drop : ascii -> bool) (s : string) :
  (String.length (remove_chars drop s) <= String.length s)%nat.
Proof.
  induction s as [| d s IH]; simpl; [lia |].
  destruct (drop d); simpl; lia.
Qed.

Lemma replace_char_length (old new : ascii) (s : string) :
  String.length (replace_char old new s) = String.length s.
Proof.
  induction s as [| d s IH]; simpl; [reflexivity | f_equal; exact IH].
Qed.

(** X14. A cleaned column name holds no space and no parenthesis, and is
    never longer than the name it was made from. *)
Theorem clean_column_chars (name : string) :
  Forall (fun c => c <> " "%char /\ c <> "("%char /\ c <> ")"%char)
         (list_ascii_of_string (clean_column name)) /\
  (String.length (clean_column name) <= String.length name)%nat.
Proof.
  unfold clean_column. split.
  - apply Forall_forall. intros c Hc.
    apply remove_chars_In in Hc as [Hp Hc].
    apply replace_char_In in Hc.
    unfold is_paren in Hp. apply orb_false_iff in Hp as [H1 H2].
    apply Ascii.eqb_neq in H1, H2.
    repeat split; try assumption.
    destruct Hc as [-> | Hc]; [discriminate | exact Hc].
  - eapply Nat.le_trans; [apply remove_chars_length |].
    rewrite replace_char_length. unfold PyStr.strip.
    eapply Nat.le_trans; [apply rstrip_length | apply lstrip_length].
Qed.

Lemma no_comma_append (a b : string) :
  no_comma a -> no_comma b -> no_comma (String.append a b).
Proof.
  unfold no_comma. induction a as [| c a IH]; simpl; intros Ha Hb;
    [exact Hb |].
  intros [H | H]; [apply Ha; left; exact H |].
  apply IH; [| exact Hb | exact H]. intros H'. apply Ha. right. exact H'.
Qed.

Lemma no_comma_strip (s : string) : no_comma s -> no_comma (PyStr.strip s).
Proof.
  unfold no_comma, PyStr.strip. intros H Hc.
  apply H. apply lstrip_In, rstrip_In. exact Hc.
Qed.

Lemma genre_emoji_no_comma (k : string) :
  no_comma (dict_get genre_emoji k "").
Proof.
  assert (Hall : Forall (fun p => no_comma (snd p)) genre_emoji).
  { unfold genre_emoji, no_comma.
    repeat (constructor;
            [simpl; intros H; repeat (destruct H as [H | H];
                                      [discriminate H |]); exact H |]).
    constructor. }
  unfold dict_get. destruct (find _ genre_emoji) as [p |] eqn:E.
  - apply find_some in E as [Hin _]. revert p Hin.
    apply Forall_forall. exact Hall.
  - intros H. destruct H.
Qed.

Lemma split_pieces_no_comma (s : string) :
  Forall no_comma (split ","%char s).
Proof.
  induction s as [| c s IH]; simpl.
  - constructor; [intros H; destruct H | constructor].
  - destruct (Ascii.eqb_spec c ","%char) as [-> | Hc].
    + constructor; [intros H; destruct H | exact IH].
    + destruct (split ","%char s) as [| p ps].
      * constructor; [| constructor].
        intros [H | H]; [congruence | destruct H].
      * apply Forall_cons_iff in IH as [Hp Hps].
        constructor; [| exact Hps].
        intros [H | H]; [congruence | exact (Hp H)].
Qed.

Lemma split_nonempty (s : string) : split ","%char s <> [].
Proof.
  destruct s as [| c s]; simpl; [discriminate |].
  destruct (Ascii.eqb c ","%char); [discriminate |].
  destruct (split ","%char s); discriminate.
Qed.

Lemma split_app_sep (p rest : string) :
  no_comma p ->
  split ","%char (String.append p (String ","%char rest)) =
  p :: split ","%char rest.
Proof.
  unfold no_comma. induction p as [| c p IH]; simpl; intros H;
    [reflexivity |].
  destruct (Ascii.eqb_spec c ","%char) as [-> | Hc];
    [exfalso; apply H; left; reflexivity |].
  rewrite IH; [reflexivity |]. intros H'. apply H. right. exact H'.
Qed.

Lemma split_no_sep (p : string) :
  no_comma p -> split ","%char p = [p].
Proof.
  unfold no_comma. induction p as [| c p IH]; simpl; intros H;
    [reflexivity |].
  destruct (Ascii.eqb_spec c ","%char) as [-> | Hc];
    [exfalso; apply H; left; reflexivity |].
  rewrite IH; [reflexivity |]. intros H'. apply H. right. exact H'.
Qed.

Lemma append_assoc (a b c : string) :
  String.append (String.append a b) c = String.append a (String.append b c).
Proof.
  induction a as [| x a IH]; simpl; [reflexivity | f_equal; exact IH].
Qed.

Lemma split_join (parts : list string) :
  Forall no_comma parts ->
  forall prefix, no_comma prefix ->
    split ","%char (String.append prefix (PyStr.join ", " parts)) =
    match parts with
    | [] => [String.append prefix EmptyString]
    | p :: ps => String.append prefix p :: map (String " "%char) ps
    end.
Proof.
  induction 1 as [| p ps Hp Hps IH]; intros prefix Hpre.
  - simpl. apply split_no_sep. apply no_comma_append; [exact Hpre |].
    intros H; destruct H.
  - destruct ps as [| q ps].
    + simpl. apply split_no_sep, no_comma_append; assumption.
    + change (PyStr.join ", " (p :: q :: ps))
        with (String.append p
                (String ","%char
                   (String.append " " (PyStr.join ", " (q :: ps))))).
      rewrite <- append_assoc.
      rewrite split_app_sep by (apply no_comma_append; assumption).
      rewrite (IH " ") by (intros [H | H]; [discriminate H | destruct H]).
      reflexivity.
Qed.

(** X15. [add_emojis] keeps the tags apart: splitting its result on commas
    gives one piece per tag of the input, in the same order, each the marker
    of the tag (nothing for a tag outside the table), a space and the
    stripped tag; from the second on, a piece starts with the space that
    follows the comma. *)
Theorem add_emojis_tags (text : string) :
  split ","%char (add_emojis (Some text)) =
  match map decorate (split ","%char text) with
  | [] => [EmptyString]
  | d :: ds => d :: map (String " "%char) ds
  end /\
  length (split ","%char (add_emojis (Some text))) =
  length (split ","%char text).
Proof.
  assert (Hd : Forall no_comma (map decorate (split ","%char text))).
  { apply Forall_map.
    eapply Forall_impl; [| apply split_pieces_no_comma].
    intros w Hw. unfold decorate.
    apply no_comma_append; [apply genre_emoji_no_comma |].
    apply no_comma_append;
      [intros [H | H]; [discriminate H | destruct H] |].
    apply no_comma_strip. exact Hw. }
  assert (E : split ","%char (add_emojis (Some text)) =
              match map decorate (split ","%char text) with
              | [] => [EmptyString]
              | d :: ds => d :: map (String " "%char) ds
              end).
  { unfold add_emojis.
    apply (split_join _ Hd EmptyString). intros H; destruct H. }
  split; [exact E |]. rewrite E.
  pose proof (split_nonempty text) as Hne.
  destruct (split ","%char text) as [| w ws]; [congruence |].
  simpl. rewrite !length_map. reflexivity.
Qed.

Lemma load_row_nonempty_genres (parse_numeric : string -> option float)
      (r : RawDrama) :
  Genres (load_row parse_numeric r) <> EmptyString.
Proof.
  simpl. unfold add_emojis.
  destruct (split ","%char (fillna_not_specified (raw_Genres r)))
    as [| w ws] eqn:E.
  - exfalso. exact (split_nonempty _ E).
  - assert (Hw : decorate w <> EmptyString).
    { unfold decorate.
      destruct (dict_get genre_emoji (PyStr.strip w) ""); discriminate. }
    simpl. destruct (map decorate ws).
    + exact Hw.
    + destruct (decorate w); [congruence | discriminate].
Qed.

(** X16. After loading, the genre text of a row is never empty; a row
    without genres carries " Not specified", decorated like a tag outside the
    table and so with a space in front, while a missing mood, summary or
    lead is stored as "Not specified". *)
Theorem load_row_text_columns (parse_numeric : string -> option float)
        (r : RawDrama) :
  Genres (load_row parse_numeric r) <> EmptyString /\
  (raw_Genres r = None ->
   Genres (load_row parse_numeric r) = " Not specified") /\
  (raw_Mood_Tags r = None ->
   Mood_Tags (load_row parse_numeric r) = "Not specified") /\
  (raw_Summary r = None ->
   Summary (load_row parse_numeric r) = "Not specified") /\
  (raw_Main_Leads r = None ->
   Main_Leads (load_row parse_numeric r) = "Not specified").
Proof.
  split; [apply load_row_nonempty_genres |].
  repeat split; intros H; unfold load_row; simpl; rewrite H; reflexivity.
Qed.

Lemma append_length (a b : string) :
  String.length (String.append a b) = (String.length a + String.length b)%nat.
Proof.
  induction a as [| c a IH]; simpl; [reflexivity | f_equal; exact IH].
Qed.

(** X20. The feature text of a loaded row is never empty: it is the four
    text columns with a space between each two, and the genre text alone is
    not empty. *)
Theorem combined_features_length (parse_numeric : string -> option float)
        (r : RawDrama) :
  String.length (Combined_Features (load_row parse_numeric r)) =
  (String.length (Genres (load_row parse_numeric r))
   + String.length (Mood_Tags (load_row parse_numeric r))
   + String.length (Summary (load_row parse_numeric r))
   + String.length (Main_Leads (load_row parse_numeric r)) + 3)%nat /\
  (4 <= String.length (Combined_Features (load_row parse_numeric r)))%nat.
Proof.
  assert (E : forall d, String.length (Combined_Features d) =
                (String.length (Genres d) + String.length (Mood_Tags d)
                 + String.length (Summary d)
                 + String.length (Main_Leads d) + 3)%nat).
  { intros d. unfold Combined_Features.
    rewrite !append_length. simpl. lia. }
  split; [apply E |]. rewrite E.
  pose proof (load_row_nonempty_genres parse_numeric r) as Hg.
  destruct (Genres (load_row parse_numeric r)); [congruence | simpl; lia].
Qed.

End LoadingFacts.

(* ------------------------------------------------------------------ *)
(** ** The similarity index: shape and range *)

Module CosineShape.

Import Cosine CosineFacts.
Local Open Scope R_scope.

(** X17. The similarity matrix is square, of the catalog's size: one row per
    row of the TF-IDF matrix, and as many entries in each. *)
Theorem cosine_sim_square (tfidf_matrix : list (list R)) :
  length (cosine_sim tfidf_matrix) = length tfidf_matrix /\
  Forall (fun row => length row = length tfidf_matrix)
         (cosine_sim tfidf_matrix).
Proof.
  unfold cosine_sim, cosine_similarity, normalize. split.
  - rewrite !length_map. reflexivity.
  - apply Forall_map, Forall_map, Forall_forall. intros x _.
    rewrite !length_map. reflexivity.
Qed.

Lemma dot_nonneg (u : list R) :
  Forall (fun x => 0 <= x) u ->
  forall v, Forall (fun x => 0 <= x) v -> 0 <= dot u v.
Proof.
  induction 1 as [| x u Hx _ IH]; intros v Hv; simpl; [lra |].
  destruct Hv as [| y v Hy Hv]; [lra |].
  specialize (IH v Hv). nra.
Qed.

(** X19. When no TF-IDF weight is negative, no similarity is. *)
Theorem cosine_sim_nonneg (tfidf_matrix : list (list R)) (i j : nat) :
  Forall (Forall (fun x => 0 <= x)) tfidf_matrix ->
  0 <= entry (cosine_sim tfidf_matrix) i j.
Proof.
  intros H. unfold cosine_sim.
  rewrite entry_cosine_similarity, dot_normalize.
  assert (Hrow : forall k, Forall (fun x => 0 <= x) (nth k tfidf_matrix [])).
  { intros k. destruct (Nat.lt_ge_cases k (length tfidf_matrix)) as [Hk | Hk].
    - revert H. rewrite Forall_forall. intros H. apply H, nth_In, Hk.
    - rewrite nth_overflow by exact Hk. constructor. }
  pose proof (dot_nonneg _ (Hrow i) _ (Hrow j)) as Hd.
  pose proof (handle_zeros_pos (nth i tfidf_matrix [])) as Hi.
  pose proof (handle_zeros_pos (nth j tfidf_matrix [])) as Hj.
  unfold Rdiv.
  pose proof (Rinv_0_lt_compat _ Hi) as Hi'.
  pose proof (Rinv_0_lt_compat _ Hj) as Hj'.
  apply Rmult_le_pos; [apply Rmult_le_pos |]; lra.
Qed.

End CosineShape.

(* ------------------------------------------------------------------ *)
(** ** Further results at concrete inputs *)

Module MoreExamples.

Import Fixture.
Local Open Scope string_scope.

Lemma catalog_shape :
  length similarity = length catalog /\
  Forall (fun row => length row = length catalog) similarity.
Proof.
  split; [reflexivity | repeat constructor].
Qed.

Lemma recommend_query_normal_form_witness :
  PyStr.is_ascii
    (PyStr.strip (String.append (PyStr.utf8 [194; 160]%nat) "  KiSS "))
    = true /\
  recommend score_by_occurrence re_compile_table catalog similarity
    (PyStr
       (PyStr.lower
          (PyStr.strip
             (String.append (PyStr.utf8 [194; 160]%nat) "  KiSS "))))
    5 =
  recommend score_by_occurrence re_compile_table catalog similarity
    (PyStr (String.append (PyStr.utf8 [194; 160]%nat) "  KiSS ")) 5.
Proof.
  split; [reflexivity |].
  apply recommend_query_normal_form. reflexivity.
Defined.

Lemma strong_match_first_best_witness :
  strong_match (fuzzy_matches score_by_occurrence catalog "remake") = Some 1%nat
  /\ exists blob,
       nth_error (search_space catalog) 1 = Some blob /\
       (80 < score_by_occurrence "remake" blob)%Z /\
       forall j other,
         nth_error (search_space catalog) j = Some other ->
         (score_by_occurrence "remake" other <=
          score_by_occurrence "remake" blob)%Z /\
         ((j < 1)%nat ->
          (score_by_occurrence "remake" other <
           score_by_occurrence "remake" blob)%Z).
Proof.
  split; [reflexivity |].
  apply (strong_match_first_best score_by_occurrence catalog "remake" 1).
  reflexivity.
Defined.

Lemma similar_indices_excludes_leader_witness :
  nth_error [1 # 2; 1; 1 # 4]%Q 1 = Some 1%Q /\
  ~ In 1%nat (similar_indices [1 # 2; 1; 1 # 4]%Q 5).
Proof.
  split; [reflexivity |].
  apply (similar_indices_excludes_leader [1 # 2; 1; 1 # 4]%Q 1 1%Q 5).
  - reflexivity.
  - intros [| [| [| j]]] t H; simpl in H;
      [| | | destruct j; discriminate H];
      injection H as <-; unfold Qle; simpl; lia.
  - intros [| j] t Hj H; [| lia].
    simpl in H. injection H as <-. unfold Qlt. simpl. lia.
Defined.

Lemma title_branch_returns_witness :
  nth_error catalog 1 = Some remake /\
  nth_error similarity 1 = Some [1; 1]%Q /\
  exists recs,
    title_branch catalog similarity 1 5 = Ok (header_for (Title remake), recs)
    /\ Forall2 (fun i rec => nth_error catalog i = Some rec)
               (similar_indices [1; 1]%Q 5) recs.
Proof.
  split; [reflexivity |]. split; [reflexivity |].
  apply (title_branch_returns catalog similarity 1 remake [1; 1]%Q 5);
    reflexivity.
Defined.

Lemma recommend_raises_only_re_error_witness :
  recommend score_by_occurrence re_compile_table catalog similarity
    (PyStr "(") 5 = Raise re_error /\
  re_error = re_error /\
  re_compile_table (PyStr.lower (PyStr.strip (py_str (PyStr "(")))) = None /\
  strong_match
    (fuzzy_matches score_by_occurrence catalog
       (PyStr.lower (PyStr.strip (py_str (PyStr "("))))) = None.
Proof.
  split; [reflexivity |].
  apply (recommend_raises_only_re_error score_by_occurrence re_compile_table
           catalog similarity (PyStr "(") 5 re_error).
  - apply catalog_shape.
  - apply catalog_shape.
  - reflexivity.
Defined.

Lemma recommend_keyword_listing_witness :
  re_compile_table (PyStr.lower (PyStr.strip " . ")) = Some any_char /\
  recommend score_by_occurrence re_compile_table catalog similarity
    (PyStr " . ") 1 =
  match filter (fun r => any_char (search_blob r)) catalog with
  | [] => Ok (MSG_NO_RESULTS, [])
  | hits => Ok (MSG_KEYWORD, firstn (Z.to_nat 1) hits)
  end.
Proof.
  split; [reflexivity |].
  apply (recommend_keyword_listing score_by_occurrence re_compile_table
           catalog similarity " . " any_char 1).
  - reflexivity.
  - apply (Examples.scores_on_catalog "."). reflexivity.
  - reflexivity.
  - lia.
Defined.

Lemma recommend_literal_query_never_lists_witness :
  recommend score_by_occurrence re_compile_table catalog similarity
    (PyStr "Kiss") 5 = Ok (header_for (Some "Kiss"), [remake]) /\
  header_for (Some "Kiss") <> MSG_KEYWORD.
Proof.
  split; [reflexivity |].
  apply (recommend_literal_query_never_lists score_by_occurrence
           re_compile_table catalog similarity "Kiss"
           (PyStr.contains "kiss") 5 (header_for (Some "Kiss")) [remake]).
  - intros blob [<- | [<- | []]] H; [reflexivity | discriminate H].
  - reflexivity.
  - intros s. reflexivity.
  - reflexivity.
Defined.

Lemma on_recommend_shows_witness :
  on_recommend score_by_occurrence re_compile_table catalog similarity
    "Kiss" 5 = Ok (ShowCards (header_for (Some "Kiss")) [remake]) /\
  PyStr.is_empty (PyStr.strip "Kiss") = false /\
  header_for (Some "Kiss") <> MSG_EMPTY_QUERY /\
  [remake] <> [] /\
  ((0 <= 5)%Z -> (Z.of_nat (length [remake]) <= 5)%Z).
Proof.
  split; [reflexivity |].
  apply (on_recommend_shows score_by_occurrence re_compile_table catalog
           similarity "Kiss" 5 (ShowCards (header_for (Some "Kiss")) [remake])).
  reflexivity.
Defined.


Lemma get_top_rated_page_sizes_witness :
  (1 <= 1 <= max_page catalog)%Z /\
  Z.of_nat (length (get_top_rated stable_nargsort catalog 1 5)) =
  (if (1 <? max_page catalog)%Z then 5
   else Z.of_nat (length catalog) mod 5)%Z.
Proof.
  split; [vm_compute; split; discriminate |].
  apply get_top_rated_page_sizes.
  - apply stable_nargsort_ok.
  - vm_compute. split; discriminate.
Defined.

Lemma cosine_sim_nonneg_witness :
  Forall (Forall (fun x => 0 <= x)%R) [[1; 0]; [1; 1]]%R /\
  (0 <= Cosine.entry (Cosine.cosine_sim [[1; 0]; [1; 1]]%R) 0 1)%R.
Proof.
  assert (H : Forall (Forall (fun x => 0 <= x)%R) [[1; 0]; [1; 1]]%R)
    by (repeat constructor; lra).
  split; [exact H |].
  apply CosineShape.cosine_sim_nonneg. exact H.
Defined.

End MoreExamples.
